(** * graph_pidstat.py: parsing, aggregation and merging of pidstat samples

    A shallow embedding of [utils/resource-monitor/graph_pidstat.py]:
    [make_pidstat_tables] (lines 135 to 211) and the data path of
    [graph_pidstat] (the three tables, the two merges of lines 254 and 255,
    the numbers of the run summary of lines 348 to 452), with the
    properties of the per-second tables.

    Conventions.
    - A text file is the list of its lines, as the iteration [for line in f]
      yields them; the file system is a partial map from paths to files.
    - Characters are ASCII.
    - Python exceptions are values of [exn]; a computation that may raise
      has type [result A].
    - A [float] is an exact rational ([Q]); the missing value (None in a
      column of strings, NaN in a column of floats) is [None] in a [cell].
      The rounding of binary floating point is not represented, nor are the
      spellings that [float()] accepts besides plain decimal numerals.
      The averages of the run summary, which the rounding of the additions
      can move from one tenth to the next, are also given on binary64
      numbers ([run_summary64]).
    - The pandas operations are written out on lists of rows: the
      constructor pads short rows, sums and means skip missing values,
      a merge pairs the rows of equal key.
    - [get_machine_mem()] reads the host; its value is the parameter
      [machine_mem], and [make_pidstat_tables_host] is the function with
      the query made, on the text that grep prints. *)

From Stdlib Require Import List String Ascii Bool ZArith QArith Qround Lia.
From Stdlib Require Import Qminmax.
From Stdlib Require Import Permutation Sorted.
From Stdlib Require Import Floats.
Import ListNotations.

#[local] Set Warnings "-inexact-float".

Local Open Scope string_scope.
Local Open Scope Z_scope.

(** ** Python exceptions and the error monad *)

Inductive exn : Type :=
| FileNotFoundError
| IndexError
| ValueError
| TypeError.

Inductive result (A : Type) : Type :=
| Ok (a : A)
| Raise (e : exn).

Arguments Ok {A} a.
Arguments Raise {A} e.

Definition bind {A B : Type} (m : result A) (k : A -> result B) : result B :=
  match m with
  | Ok a => k a
  | Raise e => Raise e
  end.

Notation "x <- m ;; k" := (bind m (fun x => k))
  (at level 61, m at next level, right associativity).

(** [mapM f l]: apply [f] to the elements in order, stop at the first
    exception. *)
Fixpoint mapM {A B : Type} (f : A -> result B) (l : list A) : result (list B) :=
  match l with
  | [] => Ok []
  | a :: l' => b <- f a ;; bs <- mapM f l' ;; Ok (b :: bs)
  end.

(** ** Python strings and lists *)

Definition isdigit (c : ascii) : bool :=
  let n := nat_of_ascii c in (Nat.leb 48 n && Nat.leb n 57)%bool.

(** The ASCII characters [str.split()] treats as separators: tab, newline,
    vertical tab, form feed, carriage return, the four separators 28..31
    and the space. *)
Definition isspace (c : ascii) : bool :=
  let n := nat_of_ascii c in
  ((Nat.leb 9 n && Nat.leb n 13) || (Nat.leb 28 n && Nat.leb n 32))%bool.

(** [line.split()]: the maximal runs of non-separator characters.  [tok] is
    the token being read. *)
Fixpoint split_from (tok : string) (s : string) : list string :=
  match s with
  | EmptyString => if String.eqb tok "" then [] else [tok]
  | String c s' =>
      if isspace c
      then (if String.eqb tok "" then split_from "" s'
            else tok :: split_from "" s')
      else split_from (tok ++ String c "") s'
  end.

Definition split (line : string) : list string := split_from "" line.

(** [line[0]] *)
Definition first_char (line : string) : result ascii :=
  match line with
  | EmptyString => Raise IndexError
  | String c _ => Ok c
  end.

(** [usage[-3]] *)
Definition index_from_end3 (usage : list string) : result string :=
  if Nat.ltb (List.length usage) 3 then Raise IndexError
  else match nth_error usage (List.length usage - 3) with
       | Some t => Ok t
       | None => Raise IndexError
       end.

(** The three slice deletions of the loop body, on the token list:
    [del usage[:8]], [del usage[9:]], [del usage[1:6]]. *)
Definition del_slices (usage : list string) : list string :=
  let u1 := skipn 8 usage in
  let u2 := firstn 9 u1 in
  firstn 1 u2 ++ skipn 6 u2.

(** ** Decimal numerals *)

Definition digit_val (c : ascii) : Z := Z.of_nat (nat_of_ascii c) - 48.

Fixpoint all_digits (s : string) : bool :=
  match s with
  | EmptyString => true
  | String c s' => (isdigit c && all_digits s')%bool
  end.

(** Value of a digit string read after the digits already summed in [acc]. *)
Fixpoint digits_val (acc : Z) (s : string) : Z :=
  match s with
  | EmptyString => acc
  | String c s' => digits_val (10 * acc + digit_val c) s'
  end.

(** Split at the first ['.'] : integer part, and the fraction when there is
    a point. *)
Fixpoint split_point (s : string) : string * option string :=
  match s with
  | EmptyString => (EmptyString, None)
  | String c s' =>
      if Ascii.eqb c "."%char then (EmptyString, Some s')
      else let '(i, f) := split_point s' in (String c i, f)
  end.

Fixpoint pow10 (n : nat) : positive :=
  match n with
  | O => 1%positive
  | S n' => (10 * pow10 n')%positive
  end.

Definition unsigned_decimal (s : string) : option Q :=
  let '(i, f) := split_point s in
  let f := match f with Some f => f | None => EmptyString end in
  if (all_digits i && all_digits f
      && negb (String.eqb (i ++ f) ""))%bool
  then Some (Qmake (digits_val 0 (i ++ f))
                   (pow10 (String.length f)))
  else None.

(** [float(x)] on a token: an optional sign and a decimal numeral. *)
Definition float_of_string (s : string) : result Q :=
  let '(neg, body) :=
    match s with
    | String "-"%char s' => (true, s')
    | String "+"%char s' => (false, s')
    | _ => (false, s)
    end in
  match unsigned_decimal body with
  | Some q => Ok (if neg then Qopp q else q)
  | None => Raise ValueError
  end.

(** ** Tables *)

(** A value of a float column: [Some q], or [None] for the missing value
    (NaN). *)
Definition cell : Type := option Q.

(** The values of the argument [type]: ["Pipeline"], ["Server"], ["DB"]. *)
Inductive role : Type := Pipeline | Server | DB.

Definition is_DB (type : role) : bool :=
  match type with DB => true | _ => false end.

(** The four metric columns of one role: [type + " %CPU"], [type + " MEM"],
    [type + " kBs Read / Second"], [type + " kBs Written / Second"]. *)
Record metrics : Type := Metrics {
  cpu : cell;
  mem : cell;
  kb_rd : cell;
  kb_wr : cell
}.

(** A data frame keyed by its ["Seconds Elapsed"] column: rows in order,
    each the key and the other columns. *)
Definition table (A : Type) : Type := list (Z * A).

Definition seconds {A : Type} (df : table A) : list Z := map fst df.

(** ** make_pidstat_tables: the parsing loop *)

(** One element of [total_usage]: [seconds_elapsed] inserted in front of
    the tokens that the deletions left. *)
Definition usage_row : Type := (Z * list string)%type.

(** The test [type == "DB" and usage[-3] != "hapi"] that skips a line;
    [usage[-3]] is evaluated for the DB table only. *)
Definition skipped (type : role) (usage : list string) : result bool :=
  if is_DB type
  then t <- index_from_end3 usage ;; Ok (negb (String.eqb t "hapi"))
  else Ok false.

(** The loop [for line in f], from the state ([seconds_elapsed],
    [total_usage]). *)
Fixpoint read_usage (type : role) (f : list string)
    (seconds_elapsed : Z) (total_usage : list usage_row)
    : result (list usage_row) :=
  match f with
  | [] => Ok total_usage
  | line :: f' =>
      c <- first_char line ;;
      if isdigit c then
        let usage := split line in
        skip <- skipped type usage ;;
        if skip : bool then read_usage type f' seconds_elapsed total_usage
        else read_usage type f' seconds_elapsed
               (total_usage ++ [(seconds_elapsed, del_slices usage)])
      else if Ascii.eqb c "#"%char
      then read_usage type f' (seconds_elapsed + 1) total_usage
      else read_usage type f' seconds_elapsed total_usage
  end.

(** ** make_pidstat_tables: the data frame *)

(** A row of the frame as constructed: the key, and the four string columns,
    [None] where the row was too short. *)
Record raw_row : Type := RawRow {
  raw_seconds : Z;
  raw_cpu : option string;
  raw_mem : option string;
  raw_rd : option string;
  raw_wr : option string
}.

Definition row_width (u : usage_row) : nat := S (List.length (snd u)).

Definition pad_row (u : usage_row) : raw_row :=
  RawRow (fst u) (nth_error (snd u) 0) (nth_error (snd u) 1)
         (nth_error (snd u) 2) (nth_error (snd u) 3).

(** [pandas.DataFrame(total_usage, columns=[...five names...])]: the rows
    are padded with [None] to the longest one; the number of columns found
    must be the five that are named, unless there is no row at all. *)
Definition DataFrame (total_usage : list usage_row) : result (list raw_row) :=
  match total_usage with
  | [] => Ok []
  | _ => if Nat.eqb (list_max (map row_width total_usage)) 5
         then Ok (map pad_row total_usage)
         else Raise ValueError
  end.

(** [lambda x: float(x) / 100 * get_machine_mem()]; [float(None)] is a
    [TypeError]. *)
Definition mem_to_gb (machine_mem : Z) (x : option string) : result Q :=
  match x with
  | None => Raise TypeError
  | Some s => v <- float_of_string s ;; Ok (v / 100 * inject_Z machine_mem)%Q
  end.

(** [astype(float)] on one value of a string column: [None] becomes NaN. *)
Definition astype_float (x : option string) : result cell :=
  match x with
  | None => Ok None
  | Some s => v <- float_of_string s ;; Ok (Some v)
  end.

(** The row after the MEM column was converted. *)
Definition apply_mem (machine_mem : Z) (r : raw_row)
    : result (raw_row * Q) :=
  m <- mem_to_gb machine_mem (raw_mem r) ;; Ok (r, m).

(** The casts of the other columns of a row.  Every failure of [astype] is
    a [ValueError], so casting row by row raises exactly when casting
    column by column does. *)
Definition cast_row (rm : raw_row * Q) : result (Z * metrics) :=
  let '(r, m) := rm in
  c <- astype_float (raw_cpu r) ;;
  rd <- astype_float (raw_rd r) ;;
  wr <- astype_float (raw_wr r) ;;
  Ok (raw_seconds r, Metrics c (Some m) rd wr).

(** Lines 175 to 191: construction, MEM conversion, casts. *)
Definition usage_df (machine_mem : Z) (total_usage : list usage_row)
    : result (table metrics) :=
  df <- DataFrame total_usage ;;
  df_mem <- mapM (apply_mem machine_mem) df ;;
  mapM cast_row df_mem.

(** ** make_pidstat_tables: summation by the second (DB) *)

Fixpoint Qsum (l : list Q) : Q :=
  match l with
  | [] => 0%Q
  | x :: l' => (x + Qsum l')%Q
  end.

(** The values of a column that are present. *)
Fixpoint present (l : list cell) : list Q :=
  match l with
  | [] => []
  | Some q :: l' => q :: present l'
  | None :: l' => present l'
  end.

(** Sum of a group: missing values are skipped. *)
Definition nansum (l : list cell) : cell := Some (Qsum (present l)).

(** The rows of [groupby(["Seconds Elapsed"])] for the key [s]. *)
Definition group {A : Type} (df : table A) (s : Z) : table A :=
  filter (fun r => Z.eqb (fst r) s) df.

(** The sum of a column over the group of the key [s]. *)
Definition group_sum (col : metrics -> cell) (df : table metrics) (s : Z)
    : cell :=
  nansum (map (fun r => col (snd r)) (group df s)).

(** [df.groupby(["Seconds Elapsed"])[col].transform(sum)]: for each row,
    the sum of the column over the rows that have its key. *)
Definition transform_sum (col : metrics -> cell) (df : table metrics)
    : list cell :=
  map (fun r => group_sum col df (fst r)) df.

(** Assignment of a column: [df[name] = values]. *)
Definition assign (set : metrics -> cell -> metrics) (df : table metrics)
    (values : list cell) : table metrics :=
  map (fun rv => (fst (fst rv), set (snd (fst rv)) (snd rv)))
      (combine df values).

Definition set_cpu (m : metrics) (v : cell) : metrics :=
  Metrics v (mem m) (kb_rd m) (kb_wr m).
Definition set_mem (m : metrics) (v : cell) : metrics :=
  Metrics (cpu m) v (kb_rd m) (kb_wr m).
Definition set_kb_rd (m : metrics) (v : cell) : metrics :=
  Metrics (cpu m) (mem m) v (kb_wr m).
Definition set_kb_wr (m : metrics) (v : cell) : metrics :=
  Metrics (cpu m) (mem m) (kb_rd m) v.

(** [drop_duplicates(subset=["Seconds Elapsed"])]: the first row of each
    key is kept; [seen] are the keys met so far. *)
Fixpoint drop_duplicates_from {A : Type} (seen : list Z) (df : table A)
    : table A :=
  match df with
  | [] => []
  | r :: df' =>
      if existsb (Z.eqb (fst r)) seen
      then drop_duplicates_from seen df'
      else r :: drop_duplicates_from (fst r :: seen) df'
  end.

Definition drop_duplicates {A : Type} (df : table A) : table A :=
  drop_duplicates_from [] df.

(** Lines 194 to 207, in the order of the source: %CPU, MEM, written,
    read, then the removal of duplicates. *)
Definition sum_by_second (df : table metrics) : table metrics :=
  let df1 := assign set_cpu df (transform_sum cpu df) in
  let df2 := assign set_mem df1 (transform_sum mem df1) in
  let df3 := assign set_kb_wr df2 (transform_sum kb_wr df2) in
  let df4 := assign set_kb_rd df3 (transform_sum kb_rd df3) in
  drop_duplicates df4.

(** ** make_pidstat_tables: negative values *)

Definition Qltb (x y : Q) : bool := negb (Qle_bool y x).

(** [x] where [x < 0] is false, [0] where it is true; NaN compares false. *)
Definition clamp (x : cell) : cell :=
  match x with
  | Some q => if Qltb q 0 then Some 0%Q else Some q
  | None => None
  end.

Definition clamp_seconds (s : Z) : Z := if s <? 0 then 0 else s.

Definition clamp_metrics (m : metrics) : metrics :=
  Metrics (clamp (cpu m)) (clamp (mem m)) (clamp (kb_rd m)) (clamp (kb_wr m)).

(** [total_usage_df[total_usage_df < 0] = 0], on every column. *)
Definition clamp_df (df : table metrics) : table metrics :=
  map (fun r => (clamp_seconds (fst r), clamp_metrics (snd r))) df.

(** ** make_pidstat_tables *)

(** A file system: the lines of the file at a path, if it exists. *)
Definition filesystem : Type := string -> option (list string).

(** [open(file_name)] and the lines it iterates over. *)
Definition open (fs : filesystem) (file_name : string)
    : result (list string) :=
  match fs file_name with
  | Some f => Ok f
  | None => Raise FileNotFoundError
  end.

(** The frame before the summation: lines 148 to 191. *)
Definition parsed_df (fs : filesystem) (machine_mem : Z)
    (file_name : string) (type : role) : result (table metrics) :=
  f <- open fs file_name ;;
  total_usage <- read_usage type f 0 [] ;;
  usage_df machine_mem total_usage.

Definition aggregate (type : role) (df : table metrics) : table metrics :=
  if is_DB type then sum_by_second df else df.

Definition make_pidstat_tables (fs : filesystem) (machine_mem : Z)
    (file_name : string) (type : role) : result (table metrics) :=
  total_usage_df <- parsed_df fs machine_mem file_name type ;;
  Ok (clamp_df (aggregate type total_usage_df)).

(** ** graph_pidstat: merge and run summary *)

(** [pandas.merge(left, right, on="Seconds Elapsed")], an inner join: each
    left row, in order, with each right row of the same key, in order.
    (The tables of [make_pidstat_tables] have their keys in non-decreasing
    order, for which this is the order of the result.) *)
Definition merge {A B : Type} (left : table A) (right : table B)
    : table (A * B) :=
  flat_map
    (fun l => map (fun r => (fst l, (snd l, snd r))) (group right (fst l)))
    left.

(** A row of [all_stats_df]: the key, then the Pipeline, Server and DB
    columns. *)
Definition stats : Type := ((metrics * metrics) * metrics)%type.

Definition pipeline_of (r : Z * stats) : metrics := fst (fst (snd r)).
Definition server_of (r : Z * stats) : metrics := snd (fst (snd r)).
Definition db_of (r : Z * stats) : metrics := snd (snd r).

(** Lines 254 and 255. *)
Definition merge_all (pipeline_df server_df db_df : table metrics)
    : table stats :=
  merge (merge pipeline_df server_df) db_df.

(** [Series.max()]: NaN ([None]) on an empty column. *)
Definition series_max (l : list Z) : option Z :=
  match l with
  | [] => None
  | s :: l' => Some (fold_left Z.max l' s)
  end.

(** [int(x)]: a NaN cannot be converted. *)
Definition to_int (x : option Z) : result Z :=
  match x with
  | Some z => Ok z
  | None => Raise ValueError
  end.

(** [Series.mean()]: missing values are skipped; NaN when nothing is
    left. *)
Definition mean (l : list cell) : cell :=
  match present l with
  | [] => None
  | xs => Some (Qsum xs / inject_Z (Z.of_nat (List.length xs)))%Q
  end.

(** Rounding to the nearest integer, ties to the even one. *)
Definition rint (q : Q) : Z :=
  let f := Qfloor q in
  match Qcompare (q - inject_Z f) (1 # 2) with
  | Lt => f
  | Gt => f + 1
  | Eq => if Z.even f then f else f + 1
  end.

(** [round(x, 1)]: the nearest multiple of one tenth. *)
Definition round1 (x : cell) : cell :=
  match x with
  | Some q => Some (Qmake (rint (q * 10)) 10)
  | None => None
  end.

(** The twelve averaged columns, in the order the summary prints them. *)
Definition summary_columns : list (Z * stats -> cell) :=
  [ (fun r => cpu (pipeline_of r)); (fun r => cpu (server_of r));
    (fun r => cpu (db_of r));
    (fun r => mem (pipeline_of r)); (fun r => mem (server_of r));
    (fun r => mem (db_of r));
    (fun r => kb_rd (pipeline_of r)); (fun r => kb_rd (server_of r));
    (fun r => kb_rd (db_of r));
    (fun r => kb_wr (pipeline_of r)); (fun r => kb_wr (server_of r));
    (fun r => kb_wr (db_of r)) ].

(** The numbers of the "Run Summary" text. *)
Record summary : Type := Summary {
  total_time : Z;
  averages : list cell
}.

Definition average (all_stats_df : table stats) (col : Z * stats -> cell)
    : cell :=
  round1 (mean (map col all_stats_df)).

(** Lines 348 to 452: the total time is computed first. *)
Definition run_summary (all_stats_df : table stats) : result summary :=
  total <- to_int (series_max (seconds all_stats_df)) ;;
  Ok (Summary total (map (average all_stats_df) summary_columns)).

(** The path of a raw file. *)
Definition raw_path (output_results_path data_description stem num_proc
    : string) : string :=
  output_results_path ++ data_description ++ "/raw/" ++ stem ++ "_stats_"
    ++ num_proc ++ "_proc.txt".

(** [graph_pidstat] up to the merge (lines 230 to 255). *)
Definition merged_stats (fs : filesystem) (machine_mem : Z)
    (num_proc data_description output_results_path : string)
    : result (table stats) :=
  pipeline_df <- make_pidstat_tables fs machine_mem
      (raw_path output_results_path data_description "pipeline" num_proc)
      Pipeline ;;
  server_df <- make_pidstat_tables fs machine_mem
      (raw_path output_results_path data_description "server" num_proc)
      Server ;;
  db_df <- make_pidstat_tables fs machine_mem
      (raw_path output_results_path data_description "database" num_proc)
      DB ;;
  Ok (merge_all pipeline_df server_df db_df).

(** [graph_pidstat] up to the run summary (line 452): the merged table,
    the one that is written as CSV at the end, and the numbers of the
    summary; nothing is written when an exception is raised.  The title
    of lines 453 to 466, which queries the host, the figure and the CSV
    file are not represented. *)
Definition graph_pidstat (fs : filesystem) (machine_mem : Z)
    (num_proc data_description output_results_path : string)
    : result (table stats * summary) :=
  all_stats_df <- merged_stats fs machine_mem num_proc data_description
                    output_results_path ;;
  s <- run_summary all_stats_df ;;
  Ok (all_stats_df, s).

(** A line of the loop is a data line when its first character is a
    digit. *)
Definition is_data_line (line : string) : bool :=
  match line with
  | EmptyString => false
  | String c _ => isdigit c
  end.

(** A data line whose third token from the end is not [hapi]: in the
    database file, a sample of another process. *)
Definition other_process (line : string) : bool :=
  (is_data_line line
   && match index_from_end3 (split line) with
      | Ok t => negb (String.eqb t "hapi")
      | Raise _ => false
      end)%bool.

(** The file without the samples of other processes. *)
Definition hapi_only (f : list string) : list string :=
  filter (fun line => negb (other_process line)) f.

(** A data line that the loop does not skip: a row of [total_usage], unless
    [usage[-3]] raises on it. *)
Definition retained (type : role) (line : string) : Prop :=
  is_data_line line = true /\ skipped type (split line) <> Ok true.

(** The four metric columns of a role table. *)
Definition metric_columns : list (metrics -> cell) := [cpu; mem; kb_rd; kb_wr].

(** A value that is not negative; the missing value is not. *)
Definition nonneg (x : cell) : Prop := forall q, x = Some q -> (0 <= q)%Q.

(** The value [x] is present and equal to the rational [q]. *)
Definition cell_is (x : cell) (q : Q) : Prop :=
  exists v, x = Some v /\ (v == q)%Q.

(** ** The run summary on binary64 numbers *)

(** The columns of [all_stats_df] hold binary64 numbers, NaN where a value
    is missing, and [mean()] adds them up in binary64: every addition is
    rounded, so that the sum, and with it the average that is printed, can
    depend on the order of the rows. *)

(** The four metric columns of one role. *)
Record metrics64 : Type := Metrics64 {
  cpu64 : float;
  mem64 : float;
  kb_rd64 : float;
  kb_wr64 : float
}.

(** A row of [all_stats_df]: the key, then the Pipeline, Server and DB
    columns. *)
Definition stats64 : Type := ((metrics64 * metrics64) * metrics64)%type.

Definition pipeline64 (r : Z * stats64) : metrics64 := fst (fst (snd r)).
Definition server64 (r : Z * stats64) : metrics64 := snd (fst (snd r)).
Definition db64 (r : Z * stats64) : metrics64 := snd (snd r).

(** The twelve averaged columns, in the order the summary prints them. *)
Definition summary_columns64 : list (Z * stats64 -> float) :=
  [ (fun r => cpu64 (pipeline64 r)); (fun r => cpu64 (server64 r));
    (fun r => cpu64 (db64 r));
    (fun r => mem64 (pipeline64 r)); (fun r => mem64 (server64 r));
    (fun r => mem64 (db64 r));
    (fun r => kb_rd64 (pipeline64 r)); (fun r => kb_rd64 (server64 r));
    (fun r => kb_rd64 (db64 r));
    (fun r => kb_wr64 (pipeline64 r)); (fun r => kb_wr64 (server64 r));
    (fun r => kb_wr64 (db64 r)) ].

(** The numbers of the "Run Summary" text. *)
Record summary64 : Type := Summary64 {
  total_time64 : Z;
  averages64 : list float
}.

(** The values of a column that are not missing. *)
Definition notna (l : list float) : list float :=
  filter (fun x => negb (is_nan x)) l.

(** A number of values, as a binary64 number. *)
Definition float_of_nat (n : nat) : float :=
  of_uint63 (Uint63.of_Z (Z.of_nat n)).

Section Summary64.

(** Two functions of the libraries: [sum], the binary64 sum of the
    values of a column as numpy computes it, and [round_tenth], the
    [round(x, 1)] of a binary64 number. *)
Variable sum : list float -> float.
Variable round_tenth : float -> float.

(** [Series.mean()]: the sum of the values that are not missing, divided
    by their number; NaN when nothing is left. *)
Definition mean64 (l : list float) : float :=
  match notna l with
  | [] => nan
  | xs => (sum xs / float_of_nat (List.length xs))%float
  end.

(** [round(all_stats_df[col].mean(), 1)] *)
Definition average64 (all_stats_df : table stats64)
    (col : Z * stats64 -> float) : float :=
  round_tenth (mean64 (map col all_stats_df)).

(** Lines 348 to 452: the total time is computed first. *)
Definition run_summary64 (all_stats_df : table stats64)
    : result summary64 :=
  total <- to_int (series_max (seconds all_stats_df)) ;;
  Ok (Summary64 total (map (average64 all_stats_df) summary_columns64)).

End Summary64.

(** The sum of the values taken one after the other, from the first: the
    sum that numpy computes on a column of fewer than eight values (longer
    columns are added up in blocks). *)
Definition sum_in_order (l : list float) : float :=
  fold_left PrimFloat.add l 0%float.

(** The nearest integer, ties to the even one: below 2^52 the addition of
    2^52 rounds to it; from 2^52 on every binary64 number is an integer. *)
Definition rint64 (y : float) : float :=
  let two52 := 4503599627370496%float in
  let nearest (a : float) : float :=
    if (a <? two52)%float then (a + two52 - two52)%float else a in
  if get_sign y then (- nearest (abs y))%float else nearest (abs y).

(** [round(x, 1)] as numpy computes it: [rint(x * 10) / 10]. *)
Definition round_tenth_numpy (x : float) : float :=
  (rint64 (x * 10) / 10)%float.

(** The value of a binary64 number that is finite. *)
Definition Q_of_float (x : float) : option Q :=
  match Prim2SF x with
  | S754_zero _ => Some 0%Q
  | S754_finite s m e =>
      let v := if 0 <=? e then inject_Z (Zpos m * 2 ^ e)
               else Qmake (Zpos m) (Pos.pow 2 (Z.to_pos (- e))) in
      Some (if s then (- v)%Q else v)
  | S754_infinity _ => None
  | S754_nan => None
  end.

(** [round(x, 1)] as Python computes it on its own floats: the value of
    [x] rounded to the nearest tenth [z / 10], then the binary64 number
    nearest to it, with the sign of [x]. *)
Definition round_tenth_exact (x : float) : float :=
  match Q_of_float x with
  | Some q =>
      match Z.abs (rint (q * 10)) with
      | Zpos p =>
          SF2Prim (SFdiv prec emax (S754_finite (get_sign x) p 0)
                     (S754_finite false 10 0))
      | _ => if get_sign x then (- 0)%float else 0%float
      end
  | None => x
  end.

(** A row of second [s] whose pipeline %CPU is [x]; its other columns
    are 0. *)
Definition cpu_row (s : Z) (x : float) : Z * stats64 :=
  (s, ((Metrics64 x 0 0 0, Metrics64 0 0 0 0), Metrics64 0 0 0 0)).

(** Three samples: 0.01, 0.1 and 0.04. *)
Definition rising_rows : table stats64 :=
  [cpu_row 0 0.01; cpu_row 1 0.1; cpu_row 2 0.04].

(** The same rows, the last one first. *)
Definition swapped_rows : table stats64 :=
  [cpu_row 2 0.04; cpu_row 1 0.1; cpu_row 0 0.01].

(** Three samples of 0.05. *)
Definition steady_rows : table stats64 :=
  [cpu_row 0 0.05; cpu_row 1 0.05; cpu_row 2 0.05].

(** ** Raw files used in the examples *)

Definition eol : string := String "010"%char "".

(** The header that pidstat prints before the samples of each second. *)
Definition marker_line : string :=
  "# Time UID PID %usr %system %guest %wait %CPU CPU minflt/s majflt/s VSZ RSS %MEM kB_rd/s kB_wr/s kB_ccwr/s iodelay Command"
  ++ eol.

(** A sample of one process, with the given %CPU, kB_rd/s and command. *)
Definition sample_line (pcpu rd command : string) : string :=
  "03:14:15 PM 1000 4242 8.00 2.00 0.00 0.00 " ++ pcpu
  ++ " 3 5.00 0.00 9000 4000 1.50 " ++ rd ++ " 12.00 0.00 0 " ++ command
  ++ eol.

Definition java_line (pcpu : string) : string :=
  sample_line pcpu "0.00" "java -jar batch.jar".

(** A backend of the database: the third token from the end is [hapi]. *)
Definition hapi_line (pcpu rd : string) : string :=
  sample_line pcpu rd "postgres: hapi hapi 172.17.0.1(5432) idle".

(** Another process sampled in the database file. *)
Definition other_line (pcpu rd : string) : string :=
  sample_line pcpu rd "postgres: checkpointer".

(** The three raw files of a run under [/tmp/hapi-performance/small], for
    four processes. *)
Definition raw_files (pipeline server database : option (list string))
    : filesystem :=
  fun path =>
    if String.eqb path
         (raw_path "/tmp/hapi-performance/" "small" "pipeline" "4")
    then pipeline
    else if String.eqb path
         (raw_path "/tmp/hapi-performance/" "small" "server" "4")
    then server
    else if String.eqb path
         (raw_path "/tmp/hapi-performance/" "small" "database" "4")
    then database
    else None.

Definition pipeline_path : string :=
  raw_path "/tmp/hapi-performance/" "small" "pipeline" "4".
Definition server_path : string :=
  raw_path "/tmp/hapi-performance/" "small" "server" "4".
Definition database_path : string :=
  raw_path "/tmp/hapi-performance/" "small" "database" "4".

(** Seconds 0 and 1 in every file; two backends at second 0. *)
Definition scenario_files : filesystem :=
  raw_files
    (Some [java_line "10.00"; marker_line; java_line "20.00"; marker_line])
    (Some [java_line "5.00"; marker_line; java_line "15.00"; marker_line])
    (Some [hapi_line "1.00" "4.00"; hapi_line "2.00" "4.00"; marker_line;
           hapi_line "3.00" "4.00"]).

(** Two samples of the same second in the pipeline and server files. *)
Definition repeated_second_files : filesystem :=
  raw_files
    (Some [java_line "10.00"; java_line "20.00"])
    (Some [java_line "5.00"; java_line "15.00"])
    (Some [hapi_line "1.00" "4.00"]).

(** Pipeline sampled at second 0 only, server at second 1 only, database
    at second 2 only. *)
Definition disjoint_files : filesystem :=
  raw_files
    (Some [java_line "10.00"])
    (Some [marker_line; java_line "5.00"])
    (Some [marker_line; marker_line; hapi_line "1.00" "4.00"]).

(** A database file with a four-token line of another process. *)
Definition short_line : string := "1 a b c" ++ eol.

Definition short_line_files : filesystem :=
  raw_files None None (Some [hapi_line "1.00" "4.00"; short_line]).

(** Negative read rates: alone in the pipeline file, next to a positive
    one of the same second in the database file. *)
Definition negative_files : filesystem :=
  raw_files
    (Some [sample_line "10.00" "-5" "java -jar batch.jar"])
    None
    (Some [hapi_line "1.00" "-5"; hapi_line "2.00" "8"; marker_line;
           hapi_line "1.00" "-5"; hapi_line "2.00" "3"]).

(** The database file of the scenario with the sample of another process
    in second 0. *)
Definition mixed_database_files : filesystem :=
  raw_files None None
    (Some [hapi_line "1.00" "4.00"; other_line "50.00" "900.00";
           hapi_line "2.00" "4.00"; marker_line; hapi_line "3.00" "4.00"]).

(** A complete line followed by a short one; a short line alone; no
    database file. *)
Definition short_pipeline_files : filesystem :=
  raw_files (Some [java_line "10.00"; short_line]) (Some [short_line]) None.

(** A line cut after its kB_rd/s column (16 tokens), after a complete
    line. *)
Definition partial_line : string :=
  "03:14:15 PM 1000 4242 8.00 2.00 0.00 0.00 10.00 3 5.00 0.00 9000 4000 1.50 0.00"
  ++ eol.

Definition partial_line_files : filesystem :=
  raw_files (Some [java_line "10.00"; partial_line]) None None.

(** ** Lines of a raw file *)

(** A marker line: its first character is ['#']. *)
Definition is_marker_line (line : string) : bool :=
  match line with
  | EmptyString => false
  | String c _ => (negb (isdigit c) && Ascii.eqb c "#"%char)%bool
  end.

(** A line that the loop passes over: not empty, and its first character
    neither a digit nor ['#']. *)
Definition is_ignored_line (line : string) : bool :=
  match line with
  | EmptyString => false
  | String c _ => (negb (isdigit c) && negb (Ascii.eqb c "#"%char))%bool
  end.

(** The number of marker lines of a file. *)
Definition markers (f : list string) : Z :=
  Z.of_nat (List.length (filter is_marker_line f)).

(** The file without the lines that the loop passes over. *)
Definition without_ignored (f : list string) : list string :=
  filter (fun line => negb (is_ignored_line line)) f.

(** ** Well-formed lines *)

(** A token that is there and that [float()] reads. *)
Definition numeral (t : option string) : Prop :=
  exists t' v, t = Some t' /\ float_of_string t' = Ok v.

(** A line of a raw file as pidstat writes it, for the table [type]: not
    empty; if it is a data line, [usage[-3]] exists where it is looked at,
    and unless the line is skipped its tokens 8, 14, 15 and 16 are
    numerals. *)
Definition well_formed (type : role) (line : string) : Prop :=
  line <> EmptyString
  /\ (is_data_line line = true ->
      exists skip,
        skipped type (split line) = Ok skip
        /\ (skip = false ->
            numeral (nth_error (split line) 8)
            /\ numeral (nth_error (split line) 14)
            /\ numeral (nth_error (split line) 15)
            /\ numeral (nth_error (split line) 16))).

(** A row with its four columns, each a numeral. *)
Definition full_row (u : usage_row) : Prop :=
  List.length (snd u) = 4%nat
  /\ numeral (nth_error (snd u) 0) /\ numeral (nth_error (snd u) 1)
  /\ numeral (nth_error (snd u) 2) /\ numeral (nth_error (snd u) 3).

(** ** get_machine_mem and get_machine_cpu *)

(** The separators of [bytes.split()] and the blanks that [int()] strips
    from a bytes object: tab, newline, vertical tab, form feed, carriage
    return, space. *)
Definition isspace_bytes (c : ascii) : bool :=
  let n := nat_of_ascii c in
  ((Nat.leb 9 n && Nat.leb n 13) || Nat.eqb n 32)%bool.

(** [stdout.split()] on the bytes that the subprocess printed. *)
Fixpoint split_bytes_from (tok : string) (s : string) : list string :=
  match s with
  | EmptyString => if String.eqb tok "" then [] else [tok]
  | String c s' =>
      if isspace_bytes c
      then (if String.eqb tok "" then split_bytes_from "" s'
            else tok :: split_bytes_from "" s')
      else split_bytes_from (tok ++ String c "") s'
  end.

Definition split_bytes (stdout : string) : list string :=
  split_bytes_from "" stdout.

(** [mem_info[1]] *)
Definition index1 (mem_info : list string) : result string :=
  match nth_error mem_info 1 with
  | Some t => Ok t
  | None => Raise IndexError
  end.

Fixpoint lstrip (s : string) : string :=
  match s with
  | EmptyString => EmptyString
  | String c s' => if isspace_bytes c then lstrip s' else s
  end.

Definition reverse (s : string) : string :=
  string_of_list_ascii (rev (list_ascii_of_string s)).

(** The blanks at both ends removed. *)
Definition strip (s : string) : string := reverse (lstrip (reverse (lstrip s))).

(** The digits of an integer literal in base ten: single underscores are
    allowed between digits.  [prev_digit] tells whether the character just
    read was a digit, [acc] is the value read so far. *)
Fixpoint int_digits (prev_digit : bool) (acc : Z) (s : string) : option Z :=
  match s with
  | EmptyString => if prev_digit then Some acc else None
  | String c s' =>
      if isdigit c then int_digits true (10 * acc + digit_val c) s'
      else if Ascii.eqb c "_"%char
      then (if prev_digit then int_digits false acc s' else None)
      else None
  end.

(** [int(x)] on a bytes object. *)
Definition int_of_bytes (x : string) : result Z :=
  let '(neg, body) :=
    match strip x with
    | String "-"%char s' => (true, s')
    | String "+"%char s' => (false, s')
    | s => (false, s)
    end in
  match int_digits false 0 body with
  | Some z => Ok (if neg then - z else z)
  | None => Raise ValueError
  end.

(** [get_machine_mem], on the output [stdout] of
    [grep MemTotal /proc/meminfo]: [int(int(mem_info[1]) / 1000000)].  The
    division is that of binary64 and [int()] drops the fraction of its
    result.  For a count below 2^53 kB the quotient is below 2^34, where
    the rounding of the division moves it by 2^-20 at most, less than
    the 0.000001 that keeps it from the next integer: the result is the
    quotient of the integers, which is written here.  (From about 1.7e16
    kB on the rounding shows, and the largest counts overflow; the
    properties of the value returned are stated below 2^53 kB.) *)
Definition get_machine_mem (stdout : string) : result Z :=
  let mem_info := split_bytes stdout in
  t <- index1 mem_info ;;
  kb <- int_of_bytes t ;;
  Ok (Z.quot kb 1000000).


(** ** make_pidstat_tables with the query of the host *)

(** [lambda x: float(x) / 100 * get_machine_mem()], the host queried at
    each value, after [float(x)]. *)
Definition mem_to_gb_host (meminfo : string) (x : option string)
    : result Q :=
  match x with
  | None => Raise TypeError
  | Some s =>
      v <- float_of_string s ;;
      machine_mem <- get_machine_mem meminfo ;;
      Ok (v / 100 * inject_Z machine_mem)%Q
  end.

Definition apply_mem_host (meminfo : string) (r : raw_row)
    : result (raw_row * Q) :=
  m <- mem_to_gb_host meminfo (raw_mem r) ;; Ok (r, m).

Definition usage_df_host (meminfo : string) (total_usage : list usage_row)
    : result (table metrics) :=
  df <- DataFrame total_usage ;;
  df_mem <- mapM (apply_mem_host meminfo) df ;;
  mapM cast_row df_mem.

(** [make_pidstat_tables] on a host whose [/proc/meminfo] query prints
    [meminfo]. *)
Definition make_pidstat_tables_host (fs : filesystem) (meminfo : string)
    (file_name : string) (type : role) : result (table metrics) :=
  f <- open fs file_name ;;
  total_usage <- read_usage type f 0 [] ;;
  total_usage_df <- usage_df_host meminfo total_usage ;;
  Ok (clamp_df (aggregate type total_usage_df)).

(** The line of [/proc/meminfo] of a host with 16384256 kB. *)
Definition meminfo_16g : string := "MemTotal:       16384256 kB" ++ eol.

(** The pidstat banner and an empty line before the samples of
    [scenario_files]' pipeline, and the same samples alone. *)
Definition banner_line : string :=
  "Linux 5.10.0-18-amd64 (host) 01/01/2022 _x86_64_ (8 CPU)" ++ eol.

Definition banner_files : filesystem :=
  raw_files
    (Some [banner_line; eol; marker_line; java_line "10.00"; eol;
           marker_line; java_line "20.00"])
    None None.

Definition plain_files : filesystem :=
  raw_files
    (Some [marker_line; java_line "10.00"; marker_line; java_line "20.00"])
    None None.

(** A database file with a data line of a single token. *)
Definition lonely_line : string := "12" ++ eol.

Definition lonely_files : filesystem :=
  raw_files None None (Some [hapi_line "1.00" "4.00"; lonely_line]).

(** A database file in which no backend of [hapi] was sampled. *)
Definition idle_database_files : filesystem :=
  raw_files None None
    (Some [banner_line; marker_line; other_line "50.00" "900.00";
           marker_line; other_line "40.00" "0.00"]).


(** Negative samples in the pipeline and database files of a run. *)
Definition negative_run_files : filesystem :=
  raw_files
    (Some [sample_line "-10.00" "-5" "java -jar batch.jar"])
    (Some [java_line "5.00"])
    (Some [hapi_line "1.00" "-5"; hapi_line "2.00" "3"]).

(** ** Tactics *)

(** [NoDup] of a list of distinct integer literals. *)
Ltac nodup_seconds :=
  repeat (constructor; [simpl; intuition discriminate |]); constructor.

(** [cell_is x q] for a computed [x]. *)
Ltac cell_value := eexists; split; reflexivity.

(** [well_formed type line] for a line given in full. *)
Ltac well_formed_line :=
  split;
  [ discriminate
  | first
      [ intros H; discriminate H
      | intros _; eexists; split;
        [ reflexivity
        | first
            [ intros H; discriminate H
            | intros _; repeat split;
              (eexists; eexists; split; reflexivity) ] ] ] ].

(** * Properties *)

Local Open Scope list_scope.

(** ** The error monad *)

Lemma bind_Ok_inv {A B : Type} (m : result A) (k : A -> result B) (b : B) :
  bind m k = Ok b -> exists a, m = Ok a /\ k a = Ok b.
Proof.
  destruct m as [a | e]; simpl; intros H.
  - exists a. split; [reflexivity | exact H].
  - discriminate H.
Qed.

Lemma bind_Raise_inv {A B : Type} (m : result A) (k : A -> result B)
    (e : exn) :
  bind m k = Raise e -> m = Raise e \/ exists a, m = Ok a /\ k a = Raise e.
Proof.
  destruct m as [a | e']; simpl; intros H.
  - right. exists a. split; [reflexivity | exact H].
  - left. injection H as ->. reflexivity.
Qed.

Lemma mapM_Ok_Forall2 {A B : Type} (f : A -> result B) (l : list A)
    (l' : list B) :
  mapM f l = Ok l' -> Forall2 (fun a b => f a = Ok b) l l'.
Proof.
  revert l'. induction l as [| a l IH]; simpl; intros l' H.
  - injection H as <-. constructor.
  - apply bind_Ok_inv in H. destruct H as (b & Hb & H).
    apply bind_Ok_inv in H. destruct H as (bs & Hbs & H).
    injection H as <-. constructor; [exact Hb | apply IH; exact Hbs].
Qed.

(** An element on which [f] raises makes the whole traversal raise, with
    an exception that [f] raises on some element. *)
Lemma mapM_raises {A B : Type} (f : A -> result B) (l : list A) (x : A)
    (e : exn) :
  In x l -> f x = Raise e ->
  exists y e', In y l /\ f y = Raise e' /\ mapM f l = Raise e'.
Proof.
  induction l as [| a l IH]; simpl; intros Hin Hx.
  - contradiction.
  - destruct (f a) as [b | ea] eqn:Ha.
    + destruct Hin as [-> | Hin]; [congruence |].
      destruct (IH Hin Hx) as (y & e' & Hy & Hfy & Hm).
      exists y, e'. simpl. rewrite Hm. auto.
    + exists a, ea. simpl. auto.
Qed.

Lemma mapM_Raise_inv {A B : Type} (f : A -> result B) (l : list A) (e : exn) :
  mapM f l = Raise e -> exists y, In y l /\ f y = Raise e.
Proof.
  induction l as [| a l IH]; simpl; intros H.
  - discriminate H.
  - destruct (f a) as [b | ea] eqn:Ha; simpl in H.
    + destruct (mapM f l) as [bs | e'] eqn:Hm; simpl in H; [discriminate H |].
      injection H as ->. destruct (IH eq_refl) as (y & Hy & Hfy).
      exists y. auto.
    + injection H as ->. exists a. auto.
Qed.

(** ** The parsing loop *)

(** The rows read so far are only extended. *)
Lemma read_usage_acc (type : role) (f : list string) :
  forall seconds_elapsed total_usage,
    read_usage type f seconds_elapsed total_usage
    = (rows <- read_usage type f seconds_elapsed [] ;;
       Ok (total_usage ++ rows)%list).
Proof.
  induction f as [| line f IH]; intros s acc; simpl.
  - rewrite app_nil_r. reflexivity.
  - destruct (first_char line) as [c | e]; simpl; [| reflexivity].
    destruct (isdigit c).
    + destruct (skipped type (split line)) as [[|] | e]; simpl;
        [apply IH | | reflexivity].
      rewrite (IH s (acc ++ _)), (IH s [_]).
      destruct (read_usage type f s []) as [rows | e]; simpl;
        [| reflexivity].
      rewrite <- app_assoc. reflexivity.
    + destruct (Ascii.eqb c "#"%char); apply IH.
Qed.

(** Only [usage[-3]] and [line[0]] can raise in the loop. *)
Lemma read_usage_raises (type : role) (f : list string) :
  forall seconds_elapsed total_usage e,
    read_usage type f seconds_elapsed total_usage = Raise e ->
    e = IndexError.
Proof.
  induction f as [| line f IH]; intros s acc e; simpl.
  - discriminate.
  - destruct line as [| c line']; simpl; [congruence |].
    destruct (isdigit c).
    + unfold skipped, index_from_end3.
      destruct (is_DB type); simpl.
      * destruct (Nat.ltb _ 3); simpl; [congruence |].
        destruct (nth_error _ _); simpl; [| congruence].
        destruct (negb _); apply IH.
      * apply IH.
    + destruct (Ascii.eqb c "#"%char); apply IH.
Qed.

(** The keys of the rows read are at least the counter at the start and
    never decrease. *)
Lemma read_usage_seconds (type : role) (f : list string) :
  forall seconds_elapsed rows,
    read_usage type f seconds_elapsed [] = Ok rows ->
    Forall (fun r => seconds_elapsed <= fst r) rows
    /\ StronglySorted Z.le (map fst rows).
Proof.
  induction f as [| line f IH]; intros s rows; simpl.
  - intros H. injection H as <-. split; constructor.
  - destruct (first_char line) as [c | e]; simpl; [| discriminate].
    destruct (isdigit c).
    + destruct (skipped type (split line)) as [[|] | e]; simpl;
        [apply IH | | discriminate].
      rewrite read_usage_acc.
      destruct (read_usage type f s []) as [rows' | e] eqn:Hr; simpl;
        [| discriminate].
      intros H. injection H as <-.
      destruct (IH _ _ Hr) as [Hge Hs].
      split.
      * constructor; [simpl; lia | exact Hge].
      * simpl. constructor; [exact Hs |].
        rewrite Forall_map. exact Hge.
    + destruct (Ascii.eqb c "#"%char).
      * intros H. destruct (IH _ _ H) as [Hge Hs]. split; [| exact Hs].
        eapply Forall_impl; [| exact Hge]. simpl. intros; lia.
      * apply IH.
Qed.

(** ** The data frame *)

Lemma float_of_string_raises (s : string) (e : exn) :
  float_of_string s = Raise e -> e = ValueError.
Proof.
  unfold float_of_string.
  destruct (match s with
            | String "-"%char s' => (true, s')
            | String "+"%char s' => (false, s')
            | _ => (false, s)
            end) as [neg body].
  destruct (unsigned_decimal body); congruence.
Qed.

Lemma cast_row_seconds (rm : raw_row * Q) (r : Z * metrics) :
  cast_row rm = Ok r -> fst r = raw_seconds (fst rm).
Proof.
  destruct rm as [rr m]. unfold cast_row. intros H.
  apply bind_Ok_inv in H. destruct H as (c & _ & H).
  apply bind_Ok_inv in H. destruct H as (rd & _ & H).
  apply bind_Ok_inv in H. destruct H as (wr & _ & H).
  injection H as <-. reflexivity.
Qed.

Lemma astype_float_raises (x : option string) (e : exn) :
  astype_float x = Raise e -> e = ValueError.
Proof.
  destruct x as [t |]; simpl; [| discriminate].
  destruct (float_of_string t) eqn:E; simpl; [discriminate |].
  intros H; injection H as <-. eapply float_of_string_raises; eauto.
Qed.

Lemma cast_row_raises (rm : raw_row * Q) (e : exn) :
  cast_row rm = Raise e -> e = ValueError.
Proof.
  destruct rm as [rr m]. unfold cast_row. intros H.
  repeat (apply bind_Raise_inv in H;
          destruct H as [H | (? & _ & H)];
          [eapply astype_float_raises; exact H |]).
  discriminate H.
Qed.

Lemma apply_mem_raises (machine_mem : Z) (r : raw_row) (e : exn) :
  apply_mem machine_mem r = Raise e -> e = ValueError \/ e = TypeError.
Proof.
  unfold apply_mem, mem_to_gb.
  destruct (raw_mem r) as [s |]; simpl.
  - destruct (float_of_string s) eqn:E; simpl; [discriminate |].
    intros H; injection H as <-. left. eapply float_of_string_raises; eauto.
  - intros H; injection H as <-. right. reflexivity.
Qed.

Lemma DataFrame_Ok (total_usage : list usage_row) (df : list raw_row) :
  DataFrame total_usage = Ok df -> df = map pad_row total_usage.
Proof.
  unfold DataFrame. destruct total_usage as [| u tu].
  - intros H; injection H as <-. reflexivity.
  - destruct (Nat.eqb _ 5); [| discriminate].
    intros H; injection H as <-. reflexivity.
Qed.

(** The frame has one row per element of [total_usage], with its key. *)
Lemma usage_df_seconds (machine_mem : Z) (total_usage : list usage_row)
    (df : table metrics) :
  usage_df machine_mem total_usage = Ok df ->
  seconds df = map fst total_usage.
Proof.
  unfold usage_df. intros H.
  apply bind_Ok_inv in H. destruct H as (raw & Hraw & H).
  apply bind_Ok_inv in H. destruct H as (dfm & Hmem & H).
  apply DataFrame_Ok in Hraw. subst raw.
  apply mapM_Ok_Forall2 in Hmem. apply mapM_Ok_Forall2 in H.
  unfold seconds.
  revert dfm df Hmem H.
  induction total_usage as [| u tu IH]; simpl; intros dfm df Hmem H.
  - inversion Hmem; subst. inversion H; subst. reflexivity.
  - inversion Hmem as [| a b l l' Hab Hrest]; subst.
    inversion H as [| a' b' l2 l2' Hab' Hrest']; subst. simpl.
    f_equal.
    + apply cast_row_seconds in Hab'. rewrite Hab'.
      unfold apply_mem in Hab. apply bind_Ok_inv in Hab.
      destruct Hab as (m & _ & Hab). injection Hab as <-. reflexivity.
    + eapply IH; eassumption.
Qed.

Lemma usage_df_raises (machine_mem : Z) (total_usage : list usage_row)
    (e : exn) :
  usage_df machine_mem total_usage = Raise e ->
  e = ValueError \/ e = TypeError.
Proof.
  unfold usage_df.
  destruct (DataFrame total_usage) as [raw | e0] eqn:Hraw; simpl.
  - destruct (mapM (apply_mem machine_mem) raw) as [dfm | e1] eqn:Hm; simpl.
    + intros H. apply mapM_Raise_inv in H. destruct H as (y & _ & Hy).
      left. eapply cast_row_raises; eauto.
    + intros H; injection H as <-.
      apply mapM_Raise_inv in Hm. destruct Hm as (y & _ & Hy).
      eapply apply_mem_raises; eauto.
  - intros H; injection H as <-. left.
    unfold DataFrame in Hraw. destruct total_usage; [discriminate |].
    destruct (Nat.eqb _ 5); congruence.
Qed.

(** The keys of the parsed frame are non-negative and in non-decreasing
    order. *)
Lemma parsed_df_seconds (fs : filesystem) (machine_mem : Z)
    (file_name : string) (type : role) (df : table metrics) :
  parsed_df fs machine_mem file_name type = Ok df ->
  Forall (fun s => 0 <= s) (seconds df)
  /\ StronglySorted Z.le (seconds df).
Proof.
  unfold parsed_df. intros H.
  apply bind_Ok_inv in H. destruct H as (f & _ & H).
  apply bind_Ok_inv in H. destruct H as (tu & Htu & H).
  apply usage_df_seconds in H. rewrite H.
  apply read_usage_seconds in Htu. destruct Htu as [Hge Hs].
  split; [| exact Hs]. rewrite Forall_map. exact Hge.
Qed.

(** ** Summation by the second *)

Lemma assign_map (set : metrics -> cell -> metrics)
    (g : Z * metrics -> cell) (df : table metrics) :
  assign set df (map g df)
  = map (fun r => (fst r, set (snd r) (g r))) df.
Proof.
  unfold assign. induction df as [| r df IH]; simpl.
  - reflexivity.
  - f_equal. exact IH.
Qed.

Lemma group_map {A B : Type} (h : Z * A -> Z * B) (df : table A) (s : Z) :
  (forall r, fst (h r) = fst r) ->
  group (map h df) s = map h (group df s).
Proof.
  intros Hh. unfold group. induction df as [| r df IH]; simpl.
  - reflexivity.
  - rewrite Hh. destruct (fst r =? s); simpl; rewrite IH; reflexivity.
Qed.

(** A transformation of the rows that keeps the keys and a column keeps
    the group sums of that column. *)
Lemma group_sum_map (col : metrics -> cell)
    (h : Z * metrics -> Z * metrics) (df : table metrics) (s : Z) :
  (forall r, fst (h r) = fst r) ->
  (forall r, col (snd (h r)) = col (snd r)) ->
  group_sum col (map h df) s = group_sum col df s.
Proof.
  intros Hk Hc. unfold group_sum.
  rewrite group_map by exact Hk. rewrite map_map.
  f_equal. apply map_ext. intros r. apply Hc.
Qed.

Lemma transform_assign (set : metrics -> cell -> metrics)
    (col : metrics -> cell) (h : Z * metrics -> Z * metrics)
    (df : table metrics) :
  (forall r, fst (h r) = fst r) ->
  (forall r, col (snd (h r)) = col (snd r)) ->
  assign set (map h df) (transform_sum col (map h df))
  = map (fun r => (fst r, set (snd (h r)) (group_sum col df (fst r)))) df.
Proof.
  intros Hk Hc. unfold transform_sum. rewrite assign_map, map_map.
  apply map_ext. intros r.
  rewrite group_sum_map by assumption. rewrite Hk. reflexivity.
Qed.

(** The four assignments in sequence compute, for every row, the four
    sums of its group in the frame as parsed. *)
Lemma sum_by_second_rows (df : table metrics) :
  sum_by_second df
  = drop_duplicates
      (map (fun r => (fst r,
                      Metrics (group_sum cpu df (fst r))
                              (group_sum mem df (fst r))
                              (group_sum kb_rd df (fst r))
                              (group_sum kb_wr df (fst r)))) df).
Proof.
  unfold sum_by_second.
  pose proof (transform_assign set_cpu cpu (fun r => r) df
                (fun _ => eq_refl) (fun _ => eq_refl)) as H1.
  rewrite map_id in H1. rewrite H1. clear H1.
  rewrite transform_assign by reflexivity.
  rewrite transform_assign by reflexivity.
  rewrite transform_assign by reflexivity.
  reflexivity.
Qed.

Lemma existsb_eqb_In (s : Z) (seen : list Z) :
  existsb (Z.eqb s) seen = true <-> In s seen.
Proof.
  rewrite existsb_exists. split.
  - intros (x & Hx & E). apply Z.eqb_eq in E. subst x. exact Hx.
  - intros H. exists s. split; [exact H | apply Z.eqb_refl].
Qed.

Section DropDuplicates.

Context {A : Type}.

Lemma drop_duplicates_from_In (df : table A) :
  forall (seen : list Z) (r : Z * A),
    In r (drop_duplicates_from seen df) ->
    In r df /\ ~ In (fst r) seen.
Proof.
  induction df as [| x df IH]; simpl; intros seen r H.
  - contradiction.
  - destruct (existsb (Z.eqb (fst x)) seen) eqn:E.
    + destruct (IH _ _ H) as [H1 H2]. auto.
    + destruct H as [<- | H].
      * split; [auto |]. rewrite <- existsb_eqb_In. congruence.
      * destruct (IH _ _ H) as [H1 H2]. split; [auto |].
        intros Hin. apply H2. right. exact Hin.
Qed.

Lemma drop_duplicates_from_keeps (df : table A) :
  forall (seen : list Z) (s : Z),
    In s (seconds df) -> ~ In s seen ->
    In s (seconds (drop_duplicates_from seen df)).
Proof.
  induction df as [| x df IH]; simpl; intros seen s H Hs.
  - contradiction.
  - destruct (existsb (Z.eqb (fst x)) seen) eqn:E.
    + apply IH; [| exact Hs]. destruct H as [<- | H]; [| exact H].
      exfalso. apply Hs. apply existsb_eqb_In. exact E.
    + simpl. destruct (Z.eq_dec (fst x) s) as [Heq | Hne]; [left; exact Heq |].
      right. apply IH.
      * destruct H as [H | H]; [contradiction | exact H].
      * intros [H' | H']; [contradiction | apply Hs; exact H'].
Qed.

Lemma drop_duplicates_from_NoDup (df : table A) :
  forall seen : list Z, NoDup (seconds (drop_duplicates_from seen df)).
Proof.
  induction df as [| x df IH]; simpl; intros seen.
  - constructor.
  - destruct (existsb (Z.eqb (fst x)) seen) eqn:E; [apply IH |].
    simpl. constructor; [| apply IH].
    unfold seconds. rewrite in_map_iff. intros (r & Hr & Hin).
    apply drop_duplicates_from_In in Hin. destruct Hin as [_ Hin].
    apply Hin. left. symmetry. exact Hr.
Qed.

(** Removing the duplicates of keys in non-decreasing order leaves them
    strictly increasing. *)
Lemma drop_duplicates_from_sorted (df : table A) :
  forall seen : list Z,
    StronglySorted Z.le (seconds df) ->
    StronglySorted Z.lt (seconds (drop_duplicates_from seen df)).
Proof.
  induction df as [| x df IH]; simpl; intros seen Hs.
  - constructor.
  - inversion Hs as [| a l Hl Hx]; subst.
    destruct (existsb (Z.eqb (fst x)) seen) eqn:E; [apply IH; exact Hl |].
    simpl. constructor; [apply IH; exact Hl |].
    unfold seconds. rewrite Forall_map. rewrite Forall_forall.
    intros r Hr. apply drop_duplicates_from_In in Hr.
    destruct Hr as [Hin Hseen].
    assert (fst x <= fst r).
    { rewrite Forall_forall in Hx. apply Hx. apply in_map. exact Hin. }
    assert (fst r <> fst x) by (intros Heq; apply Hseen; left; auto).
    lia.
Qed.

End DropDuplicates.

Lemma seconds_map_key {A B : Type} (F : Z * A -> B) (df : table A) :
  seconds (map (fun r => (fst r, F r)) df) = seconds df.
Proof.
  unfold seconds. rewrite map_map. reflexivity.
Qed.

Lemma sum_by_second_In (df : table metrics) (s : Z) :
  In s (seconds (sum_by_second df)) <-> In s (seconds df).
Proof.
  rewrite sum_by_second_rows. unfold drop_duplicates. split.
  - unfold seconds at 1. rewrite in_map_iff. intros (r & <- & Hr).
    apply drop_duplicates_from_In in Hr. destruct Hr as [Hr _].
    rewrite <- (seconds_map_key
                  (fun r => Metrics (group_sum cpu df (fst r))
                                    (group_sum mem df (fst r))
                                    (group_sum kb_rd df (fst r))
                                    (group_sum kb_wr df (fst r))) df).
    apply in_map. exact Hr.
  - intros H. apply drop_duplicates_from_keeps; [| intros []].
    rewrite seconds_map_key. exact H.
Qed.

Lemma sum_by_second_sorted (df : table metrics) :
  StronglySorted Z.le (seconds df) ->
  StronglySorted Z.lt (seconds (sum_by_second df)).
Proof.
  intros H. rewrite sum_by_second_rows.
  apply drop_duplicates_from_sorted. rewrite seconds_map_key. exact H.
Qed.

Lemma present_Some (cs : list Q) : present (map Some cs) = cs.
Proof.
  induction cs as [| c cs IH]; simpl; [reflexivity | now rewrite IH].
Qed.

(** A row of the summed frame carries the sums of its group. *)
Lemma sum_by_second_row (df : table metrics) (s : Z) (m : metrics) :
  In (s, m) (sum_by_second df) ->
  m = Metrics (group_sum cpu df s) (group_sum mem df s)
              (group_sum kb_rd df s) (group_sum kb_wr df s).
Proof.
  rewrite sum_by_second_rows. intros H.
  apply drop_duplicates_from_In in H. destruct H as [H _].
  apply in_map_iff in H. destruct H as (r & Hr & _).
  injection Hr as <- <-. reflexivity.
Qed.

(** ** The order of the seconds *)

Lemma clamp_df_seconds (df : table metrics) :
  Forall (fun s => 0 <= s) (seconds df) -> seconds (clamp_df df) = seconds df.
Proof.
  unfold clamp_df, seconds. rewrite map_map. simpl.
  induction df as [| r df IH]; simpl; intros H.
  - reflexivity.
  - inversion H as [| a l Ha Hl]; subst. f_equal; [| apply IH; exact Hl].
    unfold clamp_seconds. destruct (Z.ltb_spec (fst r) 0); [lia | reflexivity].
Qed.

Lemma aggregate_seconds_In (type : role) (df : table metrics) (s : Z) :
  In s (seconds (aggregate type df)) -> In s (seconds df).
Proof.
  unfold aggregate. destruct (is_DB type); [apply sum_by_second_In | auto].
Qed.

Lemma aggregate_seconds_nonneg (type : role) (df : table metrics) :
  Forall (fun s => 0 <= s) (seconds df) ->
  Forall (fun s => 0 <= s) (seconds (aggregate type df)).
Proof.
  rewrite !Forall_forall. intros H s Hs.
  apply H. eapply aggregate_seconds_In. exact Hs.
Qed.

Lemma StronglySorted_lt_le (l : list Z) :
  StronglySorted Z.lt l -> StronglySorted Z.le l.
Proof.
  induction 1 as [| a l Hl IH Ha]; constructor; [exact IH |].
  eapply Forall_impl; [| exact Ha]. simpl. intros; lia.
Qed.

(** For a table other than the DB one every data line is a row. *)
Lemma read_usage_count (type : role) (f : list string) :
  is_DB type = false ->
  forall seconds_elapsed rows,
    read_usage type f seconds_elapsed [] = Ok rows ->
    List.length rows = List.length (filter is_data_line f).
Proof.
  intros Ht. induction f as [| line f IH]; intros s rows; simpl.
  - intros H. injection H as <-. reflexivity.
  - destruct line as [| c line']; simpl; [discriminate |].
    unfold skipped. rewrite Ht. simpl. destruct (isdigit c).
    + rewrite read_usage_acc.
      destruct (read_usage type f s []) as [rows' | e] eqn:Hr; simpl;
        [| discriminate].
      intros H. injection H as <-. simpl. f_equal. eapply IH. exact Hr.
    + destruct (Ascii.eqb c "#"%char); apply IH.
Qed.

(** What [make_pidstat_tables] returns, stage by stage. *)
Lemma make_pidstat_tables_Ok (fs : filesystem) (machine_mem : Z)
    (file_name : string) (type : role) (df : table metrics) :
  make_pidstat_tables fs machine_mem file_name type = Ok df ->
  exists obs,
    parsed_df fs machine_mem file_name type = Ok obs
    /\ df = clamp_df (aggregate type obs)
    /\ seconds df = seconds (aggregate type obs).
Proof.
  unfold make_pidstat_tables. intros H.
  apply bind_Ok_inv in H. destruct H as (obs & Hobs & H).
  injection H as <-. exists obs. split; [exact Hobs |]. split; [reflexivity |].
  apply clamp_df_seconds. apply aggregate_seconds_nonneg.
  apply (parsed_df_seconds _ _ _ _ _ Hobs).
Qed.

(** C3, as the code has it: the seconds of every table are in
    non-decreasing order; those of the DB table are strictly increasing,
    hence unique.  For the Pipeline and Server tables nothing is removed
    or summed: the table is the parsed frame with the negative values
    replaced, one row for every data line of the file. *)
Theorem table_seconds_order (fs : filesystem) (machine_mem : Z)
    (file_name : string) (type : role) (df : table metrics) :
  make_pidstat_tables fs machine_mem file_name type = Ok df ->
  StronglySorted Z.le (seconds df)
  /\ (type = DB -> StronglySorted Z.lt (seconds df))
  /\ (type <> DB ->
      (exists obs, parsed_df fs machine_mem file_name type = Ok obs
                   /\ df = clamp_df obs)
      /\ forall f, fs file_name = Some f ->
           List.length df = List.length (filter is_data_line f)).
Proof.
  intros H. apply make_pidstat_tables_Ok in H.
  destruct H as (obs & Hobs & Hdf & Hsec).
  destruct (parsed_df_seconds _ _ _ _ _ Hobs) as [_ Hsorted].
  assert (HDB : type = DB -> StronglySorted Z.lt (seconds df)).
  { intros ->. rewrite Hsec. simpl. apply sum_by_second_sorted, Hsorted. }
  split; [| split; [exact HDB |]].
  - destruct type; try (rewrite Hsec; exact Hsorted).
    apply StronglySorted_lt_le, HDB. reflexivity.
  - intros Hne.
    assert (Ht : is_DB type = false)
      by (destruct type; [reflexivity | reflexivity | congruence]).
    unfold aggregate in Hdf. rewrite Ht in Hdf.
    split; [exists obs; auto |].
    intros f Hf. subst df. unfold clamp_df. rewrite length_map.
    unfold parsed_df, open in Hobs. rewrite Hf in Hobs. simpl in Hobs.
    apply bind_Ok_inv in Hobs. destruct Hobs as (tu & Htu & Hobs).
    apply usage_df_seconds in Hobs.
    apply (f_equal (@List.length Z)) in Hobs.
    unfold seconds in Hobs. rewrite !length_map in Hobs. rewrite Hobs.
    eapply read_usage_count; eassumption.
Qed.

(** The seconds of the DB table of the scenario are strictly increasing. *)
Lemma table_seconds_order_witness :
  exists df,
    make_pidstat_tables scenario_files 16 database_path DB = Ok df
    /\ StronglySorted Z.lt (seconds df).
Proof.
  destruct (make_pidstat_tables scenario_files 16 database_path DB)
    as [df | e] eqn:H.
  - exists df. split; [reflexivity |].
    exact (proj1 (proj2 (table_seconds_order _ _ _ _ _ H)) eq_refl).
  - vm_compute in H. discriminate H.
Defined.

(** C3 as stated fails for the Pipeline table: two data lines of the same
    second are both kept, so the seconds [0; 0] are not strictly
    increasing and no observation is dropped. *)
Lemma pipeline_keeps_repeated_second :
  exists df,
    make_pidstat_tables repeated_second_files 16 pipeline_path Pipeline
    = Ok df
    /\ seconds df = [0; 0]
    /\ List.length df = 2%nat
    /\ ~ StronglySorted Z.lt (seconds df).
Proof.
  eexists. split; [vm_compute; reflexivity |].
  split; [reflexivity |]. split; [reflexivity |].
  simpl. intros H. inversion H as [| a l _ Hall]; subst.
  inversion Hall; subst. lia.
Qed.

(** ** Negative values *)

Lemma Qltb_lt (x y : Q) : Qltb x y = true <-> (x < y)%Q.
Proof.
  unfold Qltb. rewrite negb_true_iff, <- not_true_iff_false, Qle_bool_iff.
  split; [apply Qnot_le_lt | apply Qlt_not_le].
Qed.

Lemma clamp_negative (q : Q) : (q < 0)%Q -> clamp (Some q) = Some 0%Q.
Proof.
  intros H. apply Qltb_lt in H. simpl. rewrite H. reflexivity.
Qed.

Lemma clamp_nonnegative (q : Q) : (0 <= q)%Q -> clamp (Some q) = Some q.
Proof.
  intros H. simpl. destruct (Qltb q 0) eqn:E; [| reflexivity].
  apply Qltb_lt in E. exfalso. exact (Qlt_not_le _ _ E H).
Qed.

Lemma clamp_nonneg (x : cell) : nonneg (clamp x).
Proof.
  intros q. destruct x as [v |]; simpl; [| discriminate].
  destruct (Qltb v 0) eqn:E; intros H; injection H as <-.
  - apply Qle_refl.
  - apply Qnot_lt_le. intros Hlt. apply Qltb_lt in Hlt. congruence.
Qed.

Lemma clamp_idempotent (x : cell) : clamp (clamp x) = clamp x.
Proof.
  destruct x as [v |]; simpl; [| reflexivity].
  destruct (Qltb v 0) eqn:E; simpl; [reflexivity |].
  rewrite E. reflexivity.
Qed.

(** The clamped value is the larger of 0 and the value. *)
Lemma clamp_Qmax (t : Q) :
  exists v, clamp (Some t) = Some v /\ (v == Qmax 0 t)%Q.
Proof.
  simpl. destruct (Qltb t 0) eqn:E.
  - exists 0%Q. split; [reflexivity |].
    apply Qltb_lt in E. symmetry. apply Q.max_l. apply Qlt_le_weak, E.
  - exists t. split; [reflexivity |].
    symmetry. apply Q.max_r. apply Qnot_lt_le. intros Hlt.
    apply Qltb_lt in Hlt. congruence.
Qed.

(** C7: in the table that [make_pidstat_tables] returns, for every role,
    no value is negative: the table is the aggregated frame with each
    negative value replaced by 0 (a read rate of -5 in the raw line is 0
    in the table), and replacing twice is replacing once. *)
Theorem negative_values_become_zero :
  (forall fs machine_mem file_name type df,
      make_pidstat_tables fs machine_mem file_name type = Ok df ->
      (exists obs, parsed_df fs machine_mem file_name type = Ok obs
                   /\ df = clamp_df (aggregate type obs))
      /\ Forall (fun r => 0 <= fst r
                          /\ Forall (fun col => nonneg (col (snd r)))
                                    metric_columns) df)
  /\ (forall q, (q < 0)%Q -> clamp (Some q) = Some 0%Q)
  /\ (forall q, (0 <= q)%Q -> clamp (Some q) = Some q)
  /\ (forall x, clamp (clamp x) = clamp x)
  /\ (exists m m',
        parsed_df negative_files 16 pipeline_path Pipeline = Ok [(0, m)]
        /\ kb_rd m = Some (-5 # 1)%Q
        /\ make_pidstat_tables negative_files 16 pipeline_path Pipeline
           = Ok [(0, m')]
        /\ kb_rd m' = Some 0%Q).
Proof.
  split; [| split; [| split; [| split]]].
  - intros fs machine_mem file_name type df H.
    apply make_pidstat_tables_Ok in H.
    destruct H as (obs & Hobs & Hdf & Hsec).
    split; [exists obs; auto |].
    assert (Hnn : Forall (fun s => 0 <= s) (seconds df)).
    { rewrite Hsec. apply aggregate_seconds_nonneg.
      apply (parsed_df_seconds _ _ _ _ _ Hobs). }
    unfold seconds in Hnn. rewrite Forall_map in Hnn.
    rewrite Forall_forall in Hnn |- *. intros r Hr.
    split; [apply Hnn; exact Hr |].
    subst df. unfold clamp_df in Hr. apply in_map_iff in Hr.
    destruct Hr as (r0 & <- & _). simpl.
    repeat constructor; apply clamp_nonneg.
  - exact clamp_negative.
  - exact clamp_nonnegative.
  - exact clamp_idempotent.
  - eexists. eexists.
    split; [vm_compute; reflexivity |]. split; [reflexivity |].
    split; [vm_compute; reflexivity |]. reflexivity.
Qed.

(** No value of the DB table of the negative-rate example is negative. *)
Lemma negative_values_become_zero_witness :
  exists df,
    make_pidstat_tables negative_files 16 database_path DB = Ok df
    /\ Forall (fun r => 0 <= fst r
                        /\ Forall (fun col => nonneg (col (snd r)))
                                  metric_columns) df.
Proof.
  destruct (make_pidstat_tables negative_files 16 database_path DB)
    as [df | e] eqn:H.
  - exists df. split; [reflexivity |].
    exact (proj2 (proj1 negative_values_become_zero _ _ _ _ _ H)).
  - vm_compute in H. discriminate H.
Defined.

(** A row of the DB table: the clamped sums of its second. *)
Lemma db_table_row (fs : filesystem) (machine_mem : Z) (file_name : string)
    (df obs : table metrics) (s : Z) (m : metrics) :
  parsed_df fs machine_mem file_name DB = Ok obs ->
  df = clamp_df (aggregate DB obs) ->
  In (s, m) df ->
  m = clamp_metrics
        (Metrics (group_sum cpu obs s) (group_sum mem obs s)
                 (group_sum kb_rd obs s) (group_sum kb_wr obs s)).
Proof.
  intros Hobs -> Hin. unfold clamp_df in Hin. apply in_map_iff in Hin.
  destruct Hin as ([s0 m0] & Heq & Hin0). simpl in Heq, Hin0.
  injection Heq as Hs <-.
  assert (Hs0 : 0 <= s0).
  { destruct (parsed_df_seconds _ _ _ _ _ Hobs) as [Hnn _].
    rewrite Forall_forall in Hnn. apply Hnn. apply sum_by_second_In.
    change s0 with (fst (s0, m0)). apply in_map. exact Hin0. }
  unfold clamp_seconds in Hs. destruct (Z.ltb_spec s0 0); [lia |].
  subst s0. apply sum_by_second_row in Hin0. subst m0. reflexivity.
Qed.

(** C1: for the DB role the summation stage (lines 194 to 207) leaves
    exactly one row for every second of the parsed frame, and that row
    carries, in each of %CPU, MEM, read and write, the sum of the column
    over all the rows of its second: for values [c1..cn] the sum of the
    [ci], not one of them and not their average.  The table returned
    carries that sum as well, the replacement of negative values leaving
    a sum that is not negative as it is. *)
Theorem db_rows_are_group_sums :
  (forall df,
      NoDup (seconds (aggregate DB df))
      /\ (forall s, In s (seconds (aggregate DB df)) <-> In s (seconds df))
      /\ (forall s m col,
            In (s, m) (aggregate DB df) ->
            In col metric_columns ->
            col m = group_sum col df s
            /\ forall cs,
                 map (fun r => col (snd r)) (group df s) = map Some cs ->
                 col m = Some (Qsum cs)))
  /\ (forall fs machine_mem file_name out,
        make_pidstat_tables fs machine_mem file_name DB = Ok out ->
        exists obs,
          parsed_df fs machine_mem file_name DB = Ok obs
          /\ NoDup (seconds out)
          /\ (forall s, In s (seconds out) <-> In s (seconds obs))
          /\ forall s m col cs,
               In (s, m) out -> In col metric_columns ->
               map (fun r => col (snd r)) (group obs s) = map Some cs ->
               (0 <= Qsum cs)%Q ->
               col m = Some (Qsum cs)).
Proof.
  split.
  - intros df. simpl aggregate. split; [| split].
    + rewrite sum_by_second_rows. apply drop_duplicates_from_NoDup.
    + apply sum_by_second_In.
    + intros s m col Hin Hcol.
      apply sum_by_second_row in Hin.
      assert (Hsum : col m = group_sum col df s).
      { subst m. simpl in Hcol.
        destruct Hcol as [<- | [<- | [<- | [<- | []]]]]; reflexivity. }
      split; [exact Hsum |].
      intros cs Hcs. rewrite Hsum. unfold group_sum, nansum.
      rewrite Hcs, present_Some. reflexivity.
  - intros fs machine_mem file_name out H.
    apply make_pidstat_tables_Ok in H.
    destruct H as (obs & Hobs & Hout & Hsec).
    exists obs. split; [exact Hobs |]. rewrite Hsec. simpl aggregate.
    split; [rewrite sum_by_second_rows; apply drop_duplicates_from_NoDup |].
    split; [apply sum_by_second_In |].
    intros s m col cs Hin Hcol Hcs Hpos.
    pose proof (db_table_row _ _ _ _ _ _ _ Hobs Hout Hin) as Hm.
    assert (Hc : col m = clamp (group_sum col obs s)).
    { subst m. simpl in Hcol.
      destruct Hcol as [<- | [<- | [<- | [<- | []]]]]; reflexivity. }
    rewrite Hc. unfold group_sum, nansum. rewrite Hcs, present_Some.
    apply clamp_nonnegative. exact Hpos.
Qed.

(** Two observations of second 0 with %CPU 1 and 2, one of second 1: the
    row of second 0 carries 1 + 2. *)
Lemma db_rows_are_group_sums_witness :
  let df := [(0, Metrics (Some 1%Q) (Some 0%Q) (Some 0%Q) (Some 0%Q));
             (0, Metrics (Some 2%Q) (Some 0%Q) (Some 0%Q) (Some 0%Q));
             (1, Metrics (Some 3%Q) (Some 0%Q) (Some 0%Q) (Some 0%Q))] in
  let m := Metrics (Some 3%Q) (Some 0%Q) (Some 0%Q) (Some 0%Q) in
  In (0, m) (aggregate DB df) /\ cpu m = Some (Qsum [1%Q; 2%Q])
  /\ exists out m',
       make_pidstat_tables scenario_files 16 database_path DB = Ok out
       /\ In (0, m') out
       /\ cpu m' = Some (Qsum [(100 # 100)%Q; (200 # 100)%Q]).
Proof.
  intros df m.
  assert (Hin : In (0, m) (aggregate DB df)) by (left; reflexivity).
  split; [exact Hin |]. split.
  - refine (proj2 (proj2 (proj2 (proj1 db_rows_are_group_sums df))
                     0 m cpu Hin _)
              [1%Q; 2%Q] _).
    + left. reflexivity.
    + reflexivity.
  - destruct (make_pidstat_tables scenario_files 16 database_path DB)
      as [out | e] eqn:H; [| vm_compute in H; discriminate H].
    destruct (proj2 db_rows_are_group_sums _ _ _ _ H)
      as (obs & Hobs & _ & _ & Hrows).
    vm_compute in H. injection H as <-.
    vm_compute in Hobs. injection Hobs as <-.
    eexists. eexists. split; [reflexivity |].
    split; [left; reflexivity |].
    refine (Hrows 0 _ cpu _ _ _ _ _).
    + left. reflexivity.
    + left. reflexivity.
    + reflexivity.
    + vm_compute. discriminate.
Defined.

(** C10: for the DB role the negative values are replaced after the
    summation, not before: a value of the table is [max(0, t)] for the
    sum [t] of the column over the parsed rows of its second, negative
    ones included.  In the example the read rates -5 and 8 of second 0
    give 3, and -5 and 3 of second 1 give 0. *)
Theorem db_clamp_follows_sum :
  (forall fs machine_mem file_name df,
      make_pidstat_tables fs machine_mem file_name DB = Ok df ->
      exists obs,
        parsed_df fs machine_mem file_name DB = Ok obs
        /\ forall s m col,
             In (s, m) df -> In col metric_columns ->
             let t := Qsum (present (map (fun r => col (snd r))
                                         (group obs s))) in
             col m = clamp (Some t)
             /\ exists v, col m = Some v /\ (v == Qmax 0 t)%Q)
  /\ (exists m0 m1 v0,
        make_pidstat_tables negative_files 16 database_path DB
        = Ok [(0, m0); (1, m1)]
        /\ kb_rd m0 = Some v0 /\ (v0 == 3)%Q
        /\ kb_rd m1 = Some 0%Q).
Proof.
  split.
  - intros fs machine_mem file_name df H.
    apply make_pidstat_tables_Ok in H.
    destruct H as (obs & Hobs & Hdf & _).
    exists obs. split; [exact Hobs |].
    intros s m col Hin Hcol t.
    pose proof (db_table_row _ _ _ _ _ _ _ Hobs Hdf Hin) as Hm.
    assert (Hc : col m = clamp (Some t)).
    { subst m t. simpl in Hcol.
      destruct Hcol as [<- | [<- | [<- | [<- | []]]]]; reflexivity. }
    split; [exact Hc |].
    rewrite Hc. apply clamp_Qmax.
  - eexists. eexists. eexists.
    split; [vm_compute; reflexivity |].
    split; [reflexivity |]. split; reflexivity.
Qed.

(** The CPU value of second 0 in the DB table of the scenario. *)
Lemma db_clamp_follows_sum_witness :
  exists df m,
    make_pidstat_tables scenario_files 16 database_path DB = Ok df
    /\ In (0, m) df
    /\ cpu m
       = clamp (Some (Qsum [(100 # 100)%Q; (200 # 100)%Q])).
Proof.
  destruct (make_pidstat_tables scenario_files 16 database_path DB)
    as [df | e] eqn:H.
  - destruct (proj1 db_clamp_follows_sum _ _ _ _ H) as (obs & Hobs & Hrows).
    vm_compute in H. injection H as <-.
    vm_compute in Hobs. injection Hobs as <-.
    eexists. eexists. split; [reflexivity |].
    split; [left; reflexivity |].
    refine (proj1 (Hrows 0 _ cpu _ _)).
    + left. reflexivity.
    + left. reflexivity.
  - vm_compute in H. discriminate H.
Defined.

(** ** Samples of other processes in the database file *)

Lemma read_usage_hapi_only (f : list string) :
  forall seconds_elapsed total_usage,
    read_usage DB (hapi_only f) seconds_elapsed total_usage
    = read_usage DB f seconds_elapsed total_usage.
Proof.
  unfold hapi_only.
  induction f as [| line f IH]; intros s acc; [reflexivity |].
  cbn [filter]. destruct (other_process line) eqn:Ho; cbn [negb].
  - rewrite IH. unfold other_process in Ho.
    apply andb_true_iff in Ho. destruct Ho as [Hd Ht].
    destruct line as [| c line']; [discriminate Hd |].
    cbn [read_usage first_char bind]. simpl in Hd. rewrite Hd.
    unfold skipped. cbn [is_DB].
    destruct (index_from_end3 (split (String c line'))) as [t | e];
      [| discriminate Ht].
    cbn [bind]. rewrite Ht. reflexivity.
  - cbn [read_usage].
    destruct (first_char line) as [c | e]; cbn [bind]; [| reflexivity].
    destruct (isdigit c).
    + destruct (skipped DB (split line)) as [[|] | e]; cbn [bind];
        [apply IH | apply IH | reflexivity].
    + destruct (Ascii.eqb c "#"%char); apply IH.
Qed.

(** C8: the DB table of a file is the DB table of the file without the
    data lines whose identity token is not the expected one: such a line
    adds no row and changes no value (and no error) of the table. *)
Theorem other_processes_are_ignored (fs fs' : filesystem) (machine_mem : Z)
    (file_name : string) (f : list string) :
  fs file_name = Some f ->
  fs' file_name = Some (hapi_only f) ->
  make_pidstat_tables fs machine_mem file_name DB
  = make_pidstat_tables fs' machine_mem file_name DB.
Proof.
  intros Hf Hf'. unfold make_pidstat_tables, parsed_df, open.
  rewrite Hf, Hf'. cbn [bind]. rewrite read_usage_hapi_only. reflexivity.
Qed.

(** The sample of the checkpointer in second 0 leaves the DB table of the
    scenario unchanged. *)
Lemma other_processes_are_ignored_witness :
  make_pidstat_tables mixed_database_files 16 database_path DB
  = make_pidstat_tables scenario_files 16 database_path DB.
Proof.
  refine (other_processes_are_ignored mixed_database_files scenario_files
            16 database_path _ _ _); reflexivity.
Defined.

(** ** The inner join *)

Lemma group_In {A : Type} (df : table A) (s : Z) (r : Z * A) :
  In r (group df s) <-> In r df /\ fst r = s.
Proof.
  unfold group. rewrite filter_In, Z.eqb_eq. reflexivity.
Qed.

Lemma group_absent {A : Type} (df : table A) (s : Z) :
  ~ In s (seconds df) -> group df s = [].
Proof.
  intros H. destruct (group df s) as [| r l] eqn:E; [reflexivity |].
  exfalso. apply H.
  assert (Hr : In r (group df s)) by (rewrite E; left; reflexivity).
  apply group_In in Hr. destruct Hr as [Hr <-].
  apply in_map. exact Hr.
Qed.

(** With unique keys a group has at most one row. *)
Lemma group_unique {A : Type} (df : table A) (s : Z) :
  NoDup (seconds df) -> (List.length (group df s) <= 1)%nat.
Proof.
  induction df as [| r df IH]; simpl; intros H; [lia |].
  inversion H as [| a l Hnotin Hnd]; subst.
  destruct (Z.eqb_spec (fst r) s) as [Heq | Hne].
  - subst s. fold (group df (fst r)). rewrite group_absent by exact Hnotin.
    simpl. lia.
  - apply IH. exact Hnd.
Qed.

Section Join.

Context {A B : Type}.

Lemma merge_In (left : table A) (right : table B)
    (x : Z * (A * B)) :
  In x (merge left right) <->
  In (fst x, fst (snd x)) left /\ In (fst x, snd (snd x)) right.
Proof.
  unfold merge. rewrite in_flat_map. split.
  - intros (l & Hl & Hx). apply in_map_iff in Hx.
    destruct Hx as (r & <- & Hr). apply group_In in Hr.
    destruct Hr as [Hr Hk]. simpl.
    destruct l as [kl a]; destruct r as [kr b]; simpl in *. subst kr.
    auto.
  - destruct x as [k [a b]]. simpl. intros [Hl Hr].
    exists (k, a). split; [exact Hl |].
    apply in_map_iff. exists (k, b). split; [reflexivity |].
    apply group_In. auto.
Qed.

(** A key of the join is a key of both tables, and conversely. *)
Lemma merge_seconds (left : table A) (right : table B) (k : Z) :
  In k (seconds (merge left right)) <->
  In k (seconds left) /\ In k (seconds right).
Proof.
  unfold seconds. rewrite !in_map_iff. split.
  - intros (x & <- & Hx). apply merge_In in Hx. destruct Hx as [Hl Hr].
    split; [exists (fst x, fst (snd x)) | exists (fst x, snd (snd x))];
      auto.
  - intros [([k1 a] & Hk1 & Ha) ([k2 b] & Hk2 & Hb)]. simpl in *. subst.
    exists (k, (a, b)). split; [reflexivity |]. apply merge_In. auto.
Qed.

Lemma merge_length_left (left : table A) (right : table B) :
  NoDup (seconds right) ->
  (List.length (merge left right) <= List.length left)%nat.
Proof.
  intros H. unfold merge. induction left as [| l left IH]; simpl; [lia |].
  rewrite length_app, length_map.
  pose proof (group_unique right (fst l) H). lia.
Qed.

Lemma merge_length_cons_right (left : table A) (r : Z * B)
    (right : table B) :
  List.length (merge left (r :: right))
  = (List.length (group left (fst r)) + List.length (merge left right))%nat.
Proof.
  unfold merge. induction left as [| l left IH]; [reflexivity |].
  cbn [flat_map]. rewrite !length_app, !length_map, IH.
  change (group (r :: right) (fst l))
    with (if fst r =? fst l then r :: group right (fst l)
          else group right (fst l)).
  change (group (l :: left) (fst r))
    with (if fst l =? fst r then l :: group left (fst r)
          else group left (fst r)).
  rewrite (Z.eqb_sym (fst r) (fst l)).
  destruct (fst l =? fst r); simpl; lia.
Qed.

Lemma merge_length_right (left : table A) (right : table B) :
  NoDup (seconds left) ->
  (List.length (merge left right) <= List.length right)%nat.
Proof.
  intros H. induction right as [| r right IH].
  - unfold merge. induction left as [| l left IHl]; simpl; [lia |].
    inversion H; subst. apply IHl. assumption.
  - rewrite merge_length_cons_right. simpl.
    pose proof (group_unique left (fst r) H). lia.
Qed.

Lemma merge_NoDup (left : table A) (right : table B) :
  NoDup (seconds left) -> NoDup (seconds right) ->
  NoDup (seconds (merge left right)).
Proof.
  intros Hl Hr. induction left as [| l left IH]; simpl; [constructor |].
  inversion Hl as [| a t Hnotin Hnd]; subst.
  unfold merge. simpl. fold (merge left right).
  unfold seconds. rewrite map_app, map_map. simpl.
  pose proof (group_unique right (fst l) Hr) as Hg.
  destruct (group right (fst l)) as [| g [| g' gs]]; simpl in *;
    [apply IH; exact Hnd | | lia].
  constructor; [| apply IH; exact Hnd].
  intros Hin. apply Hnotin.
  apply (proj1 (merge_seconds left right (fst l)) Hin).
Qed.

End Join.

Lemma merge_all_seconds (pipeline_df server_df db_df : table metrics)
    (k : Z) :
  In k (seconds (merge_all pipeline_df server_df db_df)) <->
  In k (seconds pipeline_df) /\ In k (seconds server_df)
  /\ In k (seconds db_df).
Proof.
  unfold merge_all.
  pose proof (merge_seconds (merge pipeline_df server_df) db_df k) as H1.
  pose proof (merge_seconds pipeline_df server_df k) as H2.
  tauto.
Qed.

(** C6, as the code has it: a second of the merged table is a second of
    all three tables (and every common second is in it); the merged table
    is no longer than the shortest of the three when the seconds of each
    are unique. *)
Theorem merge_all_inner_join (pipeline_df server_df db_df : table metrics) :
  (forall k,
      In k (seconds (merge_all pipeline_df server_df db_df)) <->
      In k (seconds pipeline_df) /\ In k (seconds server_df)
      /\ In k (seconds db_df))
  /\ (NoDup (seconds pipeline_df) -> NoDup (seconds server_df) ->
      NoDup (seconds db_df) ->
      (List.length (merge_all pipeline_df server_df db_df)
       <= Nat.min (List.length pipeline_df)
            (Nat.min (List.length server_df) (List.length db_df)))%nat).
Proof.
  split; [apply merge_all_seconds |].
  intros Hp Hs Hd. unfold merge_all, stats.
  pose proof (merge_length_left (merge pipeline_df server_df) db_df Hd).
  pose proof (merge_length_right (merge pipeline_df server_df) db_df
                (merge_NoDup _ _ Hp Hs)).
  pose proof (merge_length_left pipeline_df server_df Hs).
  pose proof (merge_length_right pipeline_df server_df Hp).
  lia.
Qed.

(** Seconds 0, 1 / 1 / 1, 2: one merged row. *)
Lemma merge_all_inner_join_witness :
  let m := Metrics (Some 1%Q) (Some 1%Q) (Some 0%Q) (Some 0%Q) in
  le (List.length (merge_all [(0, m); (1, m)] [(1, m)] [(1, m); (2, m)]))
     (Nat.min 2 (Nat.min 1 2)).
Proof.
  intros m.
  refine (proj2 (merge_all_inner_join [(0, m); (1, m)] [(1, m)]
                   [(1, m); (2, m)]) _ _ _); nodup_seconds.
Defined.

(** C6 as stated fails on tables that [make_pidstat_tables] returns: with
    two pipeline samples and two server samples in second 0 the merged
    table has four rows, more than the single row of the DB table. *)
Lemma repeated_seconds_multiply_rows :
  exists p s d,
    make_pidstat_tables repeated_second_files 16 pipeline_path Pipeline
    = Ok p
    /\ make_pidstat_tables repeated_second_files 16 server_path Server
       = Ok s
    /\ make_pidstat_tables repeated_second_files 16 database_path DB = Ok d
    /\ List.length (merge_all p s d) = 4%nat
    /\ Nat.min (List.length p) (Nat.min (List.length s) (List.length d))
       = 1%nat
    /\ ~ (List.length (merge_all p s d)
          <= Nat.min (List.length p)
               (Nat.min (List.length s) (List.length d)))%nat.
Proof.
  eexists. eexists. eexists.
  split; [vm_compute; reflexivity |].
  split; [vm_compute; reflexivity |].
  split; [vm_compute; reflexivity |].
  split; [reflexivity |]. split; [reflexivity |].
  simpl. lia.
Qed.

(** ** An empty join *)

(** The join is empty exactly when no second is common to the three
    tables. *)
Lemma merge_all_empty (pipeline_df server_df db_df : table metrics) :
  merge_all pipeline_df server_df db_df = [] <->
  (forall k, ~ (In k (seconds pipeline_df) /\ In k (seconds server_df)
                /\ In k (seconds db_df))).
Proof.
  split.
  - intros E k Hk. apply merge_all_seconds in Hk. rewrite E in Hk.
    contradiction.
  - intros H.
    destruct (merge_all pipeline_df server_df db_df) as [| r l] eqn:E;
      [reflexivity |].
    exfalso. apply (H (fst r)). apply merge_all_seconds.
    rewrite E. left. reflexivity.
Qed.

(** C4, as the code has it: when the join of the three tables has no row,
    which is when they have no second in common, the merge returns an
    empty table, without an exception; [graph_pidstat] then fails where
    the summary converts the maximum of the empty seconds column to an
    integer, with a [ValueError]. *)
Theorem empty_join_fails_in_summary (fs : filesystem) (machine_mem : Z)
    (num_proc data_description output_results_path : string)
    (pipeline_df server_df db_df : table metrics) :
  make_pidstat_tables fs machine_mem
    (raw_path output_results_path data_description "pipeline" num_proc)
    Pipeline = Ok pipeline_df ->
  make_pidstat_tables fs machine_mem
    (raw_path output_results_path data_description "server" num_proc)
    Server = Ok server_df ->
  make_pidstat_tables fs machine_mem
    (raw_path output_results_path data_description "database" num_proc)
    DB = Ok db_df ->
  (forall k, ~ (In k (seconds pipeline_df) /\ In k (seconds server_df)
                /\ In k (seconds db_df))) ->
  merge_all pipeline_df server_df db_df = []
  /\ merged_stats fs machine_mem num_proc data_description
       output_results_path
     = Ok []
  /\ run_summary [] = Raise ValueError
  /\ graph_pidstat fs machine_mem num_proc data_description
       output_results_path
     = Raise ValueError.
Proof.
  intros Hp Hs Hd Hk. apply merge_all_empty in Hk.
  assert (Hm : merged_stats fs machine_mem num_proc data_description
                 output_results_path = Ok []).
  { unfold merged_stats. rewrite Hp, Hs, Hd. cbn [bind].
    rewrite Hk. reflexivity. }
  split; [exact Hk |]. split; [exact Hm |]. split; [reflexivity |].
  unfold graph_pidstat. rewrite Hm. reflexivity.
Qed.

Lemma disjoint_files_no_common_second (k : Z) :
  ~ (In k [0] /\ In k [1] /\ In k [2]).
Proof.
  simpl. intros [[H0 | []] [[H1 | []] _]]. lia.
Qed.

(** The run on the files sampled at seconds 0, 1 and 2. *)
Lemma empty_join_fails_in_summary_witness :
  merged_stats disjoint_files 16 "4" "small" "/tmp/hapi-performance/"
  = Ok []
  /\ run_summary [] = Raise ValueError
  /\ graph_pidstat disjoint_files 16 "4" "small" "/tmp/hapi-performance/"
     = Raise ValueError.
Proof.
  destruct (make_pidstat_tables disjoint_files 16 pipeline_path Pipeline)
    as [p | e] eqn:Hp; [| vm_compute in Hp; discriminate Hp].
  destruct (make_pidstat_tables disjoint_files 16 server_path Server)
    as [s | e] eqn:Hs; [| vm_compute in Hs; discriminate Hs].
  destruct (make_pidstat_tables disjoint_files 16 database_path DB)
    as [d | e] eqn:Hd; [| vm_compute in Hd; discriminate Hd].
  refine (proj2 (empty_join_fails_in_summary disjoint_files 16 "4" "small"
                   "/tmp/hapi-performance/" p s d Hp Hs Hd _)).
  vm_compute in Hp. injection Hp as <-.
  vm_compute in Hs. injection Hs as <-.
  vm_compute in Hd. injection Hd as <-.
  exact disjoint_files_no_common_second.
Defined.

(** C4 as stated fails: for three files that share no second the three
    tables are built and the merge of lines 254 and 255 returns, with an
    empty table; no exception is raised there. *)
Lemma merge_of_disjoint_seconds_returns :
  exists p s d,
    make_pidstat_tables disjoint_files 16 pipeline_path Pipeline = Ok p
    /\ make_pidstat_tables disjoint_files 16 server_path Server = Ok s
    /\ make_pidstat_tables disjoint_files 16 database_path DB = Ok d
    /\ seconds p = [0] /\ seconds s = [1] /\ seconds d = [2]
    /\ merge_all p s d = []
    /\ merged_stats disjoint_files 16 "4" "small" "/tmp/hapi-performance/"
       = Ok []
    /\ forall e,
         merged_stats disjoint_files 16 "4" "small" "/tmp/hapi-performance/"
         <> Raise e.
Proof.
  eexists. eexists. eexists.
  split; [vm_compute; reflexivity |].
  split; [vm_compute; reflexivity |].
  split; [vm_compute; reflexivity |].
  split; [reflexivity |]. split; [reflexivity |]. split; [reflexivity |].
  split; [reflexivity |].
  split; [vm_compute; reflexivity |].
  intros e. vm_compute. discriminate.
Qed.

(** ** Lines without the column window *)

(** A retained data line is a row of [total_usage]. *)
Lemma read_usage_retained (type : role) (f : list string) :
  forall seconds_elapsed rows line,
    read_usage type f seconds_elapsed [] = Ok rows ->
    In line f -> retained type line ->
    exists sec, In (sec, del_slices (split line)) rows.
Proof.
  induction f as [| l f IH]; intros s rows line H Hin [Hd Hk];
    [contradiction |].
  cbn [read_usage] in H.
  destruct l as [| c l']; [discriminate H |].
  cbn [first_char bind] in H.
  destruct (isdigit c) eqn:Ec.
  - destruct (skipped type (split (String c l'))) as [[|] | e] eqn:Es;
      cbn [bind] in H; [| | discriminate H].
    + destruct Hin as [<- | Hin]; [contradiction |].
      eapply IH; [exact H | exact Hin | split; assumption].
    + rewrite read_usage_acc in H.
      destruct (read_usage type f s []) as [rows' | e] eqn:Hr;
        cbn [bind] in H; [| discriminate H].
      injection H as <-.
      destruct Hin as [<- | Hin]; [exists s; left; reflexivity |].
      destruct (IH _ _ _ Hr Hin (conj Hd Hk)) as [sec Hsec].
      exists sec. right. exact Hsec.
  - destruct Hin as [<- | Hin]; [simpl in Hd; congruence |].
    destruct (Ascii.eqb c "#"%char);
      (eapply IH; [exact H | exact Hin | split; assumption]).
Qed.

(** A row of [total_usage] comes from a retained data line. *)
Lemma read_usage_origin (type : role) (f : list string) :
  forall seconds_elapsed rows u,
    read_usage type f seconds_elapsed [] = Ok rows ->
    In u rows ->
    exists line, In line f /\ retained type line
                 /\ snd u = del_slices (split line).
Proof.
  induction f as [| l f IH]; intros s rows u H Hin.
  - injection H as <-. contradiction.
  - cbn [read_usage] in H.
    destruct l as [| c l']; [discriminate H |].
    cbn [first_char bind] in H.
    destruct (isdigit c) eqn:Ec.
    + destruct (skipped type (split (String c l'))) as [[|] | e] eqn:Es;
        cbn [bind] in H; [| | discriminate H].
      * destruct (IH _ _ _ H Hin) as (line & Hl & Hr & Hu).
        exists line. split; [right; exact Hl | auto].
      * rewrite read_usage_acc in H.
        destruct (read_usage type f s []) as [rows' | e] eqn:Hr;
          cbn [bind] in H; [| discriminate H].
        injection H as <-. destruct Hin as [<- | Hin].
        -- exists (String c l'). split; [left; reflexivity |].
           split; [| reflexivity]. split; [exact Ec | congruence].
        -- destruct (IH _ _ _ Hr Hin) as (line & Hl & Hrt & Hu).
           exists line. split; [right; exact Hl | auto].
    + assert (Hrec : exists s', read_usage type f s' [] = Ok rows)
        by (destruct (Ascii.eqb c "#"%char); eexists; exact H).
      destruct Hrec as [s' Hrec].
      destruct (IH _ _ _ Hrec Hin) as (line & Hl & Hrt & Hu).
      exists line. split; [right; exact Hl | auto].
Qed.

(** The tokens left by the deletions, by the number of tokens of the
    line. *)
Lemma del_slices_length (usage : list string) :
  List.length (del_slices usage)
  = (Nat.min 1 (Nat.min 9 (List.length usage - 8))
     + (Nat.min 9 (List.length usage - 8) - 6))%nat.
Proof.
  unfold del_slices.
  rewrite length_app, length_skipn, !length_firstn, length_skipn.
  reflexivity.
Qed.

(** A row without MEM column makes the construction of the frame fail. *)
Lemma usage_df_short_row (machine_mem : Z) (total_usage : list usage_row)
    (u : usage_row) :
  In u total_usage -> (List.length (snd u) <= 1)%nat ->
  exists e, usage_df machine_mem total_usage = Raise e.
Proof.
  intros Hin Hlen. unfold usage_df.
  destruct (DataFrame total_usage) as [raw | e] eqn:Hraw; cbn [bind];
    [| exists e; reflexivity].
  apply DataFrame_Ok in Hraw. subst raw.
  assert (Hu : apply_mem machine_mem (pad_row u) = Raise TypeError).
  { unfold apply_mem, pad_row. cbn [raw_mem].
    destruct (snd u) as [| t [| t' l]]; simpl in *; [reflexivity .. | lia]. }
  destruct (mapM_raises _ _ _ _ (in_map pad_row _ _ Hin) Hu)
    as (y & e' & _ & _ & Hm).
  rewrite Hm. exists e'. reflexivity.
Qed.

(** Rows that all lack a column: the five column names do not fit. *)
Lemma DataFrame_short_rows (total_usage : list usage_row) :
  total_usage <> [] ->
  Forall (fun u => (List.length (snd u) < 4)%nat) total_usage ->
  DataFrame total_usage = Raise ValueError.
Proof.
  intros Hne Hall. unfold DataFrame.
  destruct total_usage as [| u tu]; [congruence |].
  destruct (Nat.eqb_spec (list_max (map row_width (u :: tu))) 5) as [E | _];
    [| reflexivity].
  exfalso.
  assert (Hle : (list_max (map row_width (u :: tu)) <= 4)%nat).
  { apply list_max_le. rewrite Forall_map.
    eapply Forall_impl; [| exact Hall]. unfold row_width. intros; lia. }
  lia.
Qed.

Lemma make_pidstat_tables_raises (fs : filesystem) (machine_mem : Z)
    (file_name : string) (type : role) (f : list string) (e : exn) :
  fs file_name = Some f ->
  make_pidstat_tables fs machine_mem file_name type = Raise e ->
  e = IndexError \/ e = ValueError \/ e = TypeError.
Proof.
  intros Hf. unfold make_pidstat_tables, parsed_df, open. rewrite Hf.
  cbn [bind].
  destruct (read_usage type f 0 []) as [tu | e0] eqn:Hr; cbn [bind].
  - destruct (usage_df machine_mem tu) as [df | e1] eqn:Hu; cbn [bind];
      [discriminate |].
    intros H; injection H as <-. right. eapply usage_df_raises; eauto.
  - intros H; injection H as <-. left. eapply read_usage_raises; eauto.
Qed.

(** C5, as the code has it.  A file that does not exist raises
    [FileNotFoundError].  For a file that exists, a data line without the
    column window raises (an [IndexError], [ValueError] or [TypeError])
    when the loop does not skip it and it has fewer than 15 tokens, so no
    MEM column, or when no line that the loop keeps has the 17 tokens of
    the window.  A line of the DB file with another identity token is
    skipped before its columns are looked at. *)
Theorem missing_file_and_short_lines (fs : filesystem) (machine_mem : Z)
    (file_name : string) (type : role) :
  (fs file_name = None ->
   make_pidstat_tables fs machine_mem file_name type
   = Raise FileNotFoundError)
  /\ (forall f line,
        fs file_name = Some f -> In line f -> retained type line ->
        (List.length (split line) < 15)%nat ->
        exists e,
          make_pidstat_tables fs machine_mem file_name type = Raise e
          /\ (e = IndexError \/ e = ValueError \/ e = TypeError))
  /\ (forall f line,
        fs file_name = Some f -> In line f -> retained type line ->
        (forall l, In l f -> retained type l ->
                   (List.length (split l) < 17)%nat) ->
        exists e,
          make_pidstat_tables fs machine_mem file_name type = Raise e
          /\ (e = IndexError \/ e = ValueError)).
Proof.
  split; [| split].
  - intros Hf. unfold make_pidstat_tables, parsed_df, open.
    rewrite Hf. reflexivity.
  - intros f line Hf Hin Hret Hlen.
    assert (Hraise : exists e,
               make_pidstat_tables fs machine_mem file_name type = Raise e).
    { unfold make_pidstat_tables, parsed_df, open. rewrite Hf. cbn [bind].
      destruct (read_usage type f 0 []) as [tu | e0] eqn:Hr; cbn [bind];
        [| exists e0; reflexivity].
      destruct (read_usage_retained _ _ _ _ _ Hr Hin Hret) as [sec Hrow].
      destruct (usage_df_short_row machine_mem tu _ Hrow) as [e He].
      - cbn [snd]. rewrite del_slices_length. lia.
      - rewrite He. exists e. reflexivity. }
    destruct Hraise as [e He]. exists e. split; [exact He |].
    eapply make_pidstat_tables_raises; eassumption.
  - intros f line Hf Hin Hret Hall.
    unfold make_pidstat_tables, parsed_df, open. rewrite Hf. cbn [bind].
    destruct (read_usage type f 0 []) as [tu | e0] eqn:Hr; cbn [bind].
    + exists ValueError. split; [| right; reflexivity].
      unfold usage_df. rewrite DataFrame_short_rows; [reflexivity | |].
      * destruct (read_usage_retained _ _ _ _ _ Hr Hin Hret) as [sec Hrow].
        intros ->. contradiction.
      * rewrite Forall_forall. intros u Hu.
        destruct (read_usage_origin _ _ _ _ _ Hr Hu) as (l & Hl & Hrt & ->).
        specialize (Hall l Hl Hrt). rewrite del_slices_length. lia.
    + exists e0. split; [reflexivity |]. left.
      eapply read_usage_raises; eauto.
Qed.

Lemma short_line_retained (type : role) :
  is_DB type = false -> retained type short_line.
Proof.
  intros Ht. split; [reflexivity |].
  unfold skipped. rewrite Ht. discriminate.
Qed.

(** No database file; a short line after a complete one in the pipeline
    file; a short line alone in the server file. *)
Lemma missing_file_and_short_lines_witness :
  make_pidstat_tables short_pipeline_files 16 database_path DB
  = Raise FileNotFoundError
  /\ (exists e,
        make_pidstat_tables short_pipeline_files 16 pipeline_path Pipeline
        = Raise e
        /\ (e = IndexError \/ e = ValueError \/ e = TypeError))
  /\ (exists e,
        make_pidstat_tables short_pipeline_files 16 server_path Server
        = Raise e
        /\ (e = IndexError \/ e = ValueError)).
Proof.
  split; [| split].
  - exact (proj1 (missing_file_and_short_lines short_pipeline_files 16
                    database_path DB) eq_refl).
  - refine (proj1 (proj2 (missing_file_and_short_lines short_pipeline_files
                            16 pipeline_path Pipeline))
              [java_line "10.00"; short_line] short_line eq_refl _ _ _).
    + right. left. reflexivity.
    + apply short_line_retained. reflexivity.
    + vm_compute. lia.
  - refine (proj2 (proj2 (missing_file_and_short_lines short_pipeline_files
                            16 server_path Server))
              [short_line] short_line eq_refl _ _ _).
    + left. reflexivity.
    + apply short_line_retained. reflexivity.
    + intros l [<- | []] _. vm_compute. lia.
Defined.

(** A line with 15 or 16 tokens next to a complete line raises nothing:
    the frame pads its row, and the cast turns the padding into a missing
    value. *)
Lemma partial_line_gives_missing_value :
  exists m m',
    List.length (split partial_line) = 16%nat
    /\ make_pidstat_tables partial_line_files 16 pipeline_path Pipeline
       = Ok [(0, m); (0, m')]
    /\ kb_rd m' = Some (0 # 100)%Q
    /\ kb_wr m' = None.
Proof.
  eexists. eexists. split; [reflexivity |].
  split; [vm_compute; reflexivity |]. split; reflexivity.
Qed.

(** C5 as stated fails: the DB file has a data line of four tokens, from
    which no column of the window can be taken, and the table is built
    all the same, from the other line. *)
Lemma short_line_of_other_process_is_skipped :
  exists f df,
    short_line_files database_path = Some f
    /\ In short_line f
    /\ is_data_line short_line = true
    /\ split short_line = ["1"; "a"; "b"; "c"]
    /\ del_slices (split short_line) = []
    /\ make_pidstat_tables short_line_files 16 database_path DB = Ok df
    /\ List.length df = 1%nat.
Proof.
  eexists. eexists.
  split; [reflexivity |]. split; [right; left; reflexivity |].
  split; [reflexivity |]. split; [reflexivity |]. split; [reflexivity |].
  split; [vm_compute; reflexivity | reflexivity].
Qed.

(** ** The run summary *)

Lemma fold_left_max_spec (l : list Z) :
  forall s,
    let m := fold_left Z.max l s in
    In m (s :: l) /\ Forall (fun x => x <= m) (s :: l).
Proof.
  induction l as [| a l IH]; intros s; cbn [fold_left].
  - split; [left; reflexivity | repeat constructor; lia].
  - specialize (IH (Z.max s a)). cbv zeta in IH. destruct IH as [Hin Hall].
    inversion Hall as [| x t Hx Ht]; subst.
    split.
    + destruct Hin as [Hin | Hin]; [| right; right; exact Hin].
      rewrite <- Hin.
      destruct (Z.max_spec s a) as [[_ E] | [_ E]]; rewrite E;
        [right; left | left]; reflexivity.
    + constructor; [lia |]. constructor; [lia | exact Ht].
Qed.

(** The maximum of a non-empty column is its largest element. *)
Lemma series_max_spec (l : list Z) :
  l <> [] ->
  exists m, series_max l = Some m /\ In m l /\ Forall (fun x => x <= m) l.
Proof.
  destruct l as [| s l]; [congruence |]. intros _.
  exists (fold_left Z.max l s). split; [reflexivity |].
  apply fold_left_max_spec.
Qed.

Lemma series_max_perm (l l' : list Z) :
  Permutation l l' -> series_max l = series_max l'.
Proof.
  intros HP. destruct l as [| s l].
  - apply Permutation_nil in HP. subst. reflexivity.
  - assert (Hne' : l' <> []).
    { intros ->. apply Permutation_sym, Permutation_nil in HP.
      discriminate HP. }
    destruct (series_max_spec (s :: l)) as (m & Hm & Hin & Hall);
      [discriminate |].
    destruct (series_max_spec l' Hne') as (m' & Hm' & Hin' & Hall').
    rewrite Hm, Hm'. f_equal.
    rewrite Forall_forall in Hall, Hall'.
    pose proof (Hall m' (Permutation_in _ (Permutation_sym HP) Hin')).
    pose proof (Hall' m (Permutation_in _ HP Hin)).
    lia.
Qed.

Lemma Forall2_map_right {A B : Type} (R : A -> B -> Prop) (f : A -> B)
    (l : list A) :
  (forall x, In x l -> R x (f x)) -> Forall2 R l (map f l).
Proof.
  induction l as [| a l IH]; simpl; intros H; constructor.
  - apply H. left. reflexivity.
  - apply IH. intros x Hx. apply H. right. exact Hx.
Qed.

Lemma notna_perm (l l' : list float) :
  Permutation l l' -> Permutation (notna l) (notna l').
Proof.
  unfold notna.
  induction 1 as [| x l l' _ IH | x y l | l l' l'' _ IH1 _ IH2]; simpl.
  - constructor.
  - destruct (negb (is_nan x)); [constructor |]; exact IH.
  - destruct (negb (is_nan x)), (negb (is_nan y));
      try apply Permutation_refl. apply perm_swap.
  - eapply Permutation_trans; eassumption.
Qed.

(** C9: on a merged table that is not empty the summary is computed; its
    total time is the largest of the seconds of the table, whatever the
    order of the rows; each of its twelve averages is the binary64 mean
    of its column, the sum of the values that are not missing divided by
    their number, rounded to one decimal (NaN when the whole column is
    missing).  The averages are those of the rows in any other order if
    the sum does not depend on the order of its terms; the binary64 sum
    does depend on it. *)
Theorem run_summary64_spec (sum : list float -> float)
    (round_tenth : float -> float) (all_stats_df : table stats64) :
  all_stats_df <> [] ->
  exists total avgs,
    run_summary64 sum round_tenth all_stats_df = Ok (Summary64 total avgs)
    /\ In total (seconds all_stats_df)
    /\ Forall (fun s => s <= total) (seconds all_stats_df)
    /\ List.length avgs = 12%nat
    /\ Forall2
         (fun col avg =>
            let xs := notna (map col all_stats_df) in
            (xs = [] -> avg = round_tenth nan)
            /\ (xs <> [] ->
                avg = round_tenth
                        (sum xs / float_of_nat (List.length xs))%float))
         summary_columns64 avgs
    /\ (forall rows,
          Permutation all_stats_df rows ->
          exists avgs',
            run_summary64 sum round_tenth rows = Ok (Summary64 total avgs'))
    /\ ((forall l l', Permutation l l' -> sum l = sum l') ->
        forall rows,
          Permutation all_stats_df rows ->
          run_summary64 sum round_tenth rows = Ok (Summary64 total avgs)).
Proof.
  intros Hne.
  destruct (series_max_spec (seconds all_stats_df)) as (m & Hm & Hin & Hall).
  { destruct all_stats_df; [congruence | discriminate]. }
  assert (Hrun : forall rows,
             Permutation all_stats_df rows ->
             run_summary64 sum round_tenth rows
             = Ok (Summary64 m (map (average64 sum round_tenth rows)
                                   summary_columns64))).
  { intros rows HP. unfold run_summary64.
    rewrite <- (series_max_perm (seconds all_stats_df) (seconds rows))
      by (apply Permutation_map; exact HP).
    rewrite Hm. reflexivity. }
  exists m, (map (average64 sum round_tenth all_stats_df) summary_columns64).
  split; [apply Hrun, Permutation_refl |].
  split; [exact Hin |]. split; [exact Hall |].
  split; [reflexivity |]. split; [| split].
  - apply Forall2_map_right. intros col _. cbv zeta.
    unfold average64, mean64.
    destruct (notna (map col all_stats_df)) as [| x xs];
      split; intros H; congruence.
  - intros rows HP. eexists. apply Hrun. exact HP.
  - intros Hsum rows HP. rewrite (Hrun rows HP). f_equal. f_equal.
    apply map_ext. intros col. unfold average64, mean64.
    pose proof (notna_perm _ _ (Permutation_map col HP)) as Hp.
    pose proof (Permutation_length Hp) as Hlen.
    destruct (notna (map col all_stats_df)) as [| x xs];
      destruct (notna (map col rows)) as [| y ys];
      try discriminate Hlen; [reflexivity |].
    rewrite (Hsum _ _ Hp), Hlen. reflexivity.
Qed.

(** Three samples of 0.05: the average that is printed is 0.1. *)
Lemma run_summary64_spec_witness :
  exists avgs,
    run_summary64 sum_in_order round_tenth_numpy steady_rows
    = Ok (Summary64 2 avgs)
    /\ nth_error avgs 0 = Some 0.1%float.
Proof.
  destruct (run_summary64_spec sum_in_order round_tenth_numpy steady_rows)
    as (total & avgs & Hrun & _); [discriminate |].
  vm_compute in Hrun. injection Hrun as <- <-.
  eexists. split; reflexivity.
Defined.

(** C9, counterexample: the samples 0.01, 0.1 and 0.04 of three seconds,
    and the same three rows with the last one first.  In the first order
    the sum of the column is rounded below 0.15 and the average printed is
    0.0; in the second it is 0.1, with either way of rounding to one
    decimal.  The mean of the three values, rounded to one decimal, is
    0.1. *)
Lemma averages_depend_on_row_order :
  Permutation rising_rows swapped_rows
  /\ (exists avgs avgs',
        run_summary64 sum_in_order round_tenth_numpy rising_rows
        = Ok (Summary64 2 avgs)
        /\ run_summary64 sum_in_order round_tenth_numpy swapped_rows
           = Ok (Summary64 2 avgs')
        /\ nth_error avgs 0 = Some 0%float
        /\ nth_error avgs' 0 = Some 0.1%float)
  /\ (exists avgs avgs',
        run_summary64 sum_in_order round_tenth_exact rising_rows
        = Ok (Summary64 2 avgs)
        /\ run_summary64 sum_in_order round_tenth_exact swapped_rows
           = Ok (Summary64 2 avgs')
        /\ nth_error avgs 0 = Some 0%float
        /\ nth_error avgs' 0 = Some 0.1%float)
  /\ run_summary64 sum_in_order round_tenth_numpy rising_rows
     <> run_summary64 sum_in_order round_tenth_numpy swapped_rows
  /\ run_summary64 sum_in_order round_tenth_exact rising_rows
     <> run_summary64 sum_in_order round_tenth_exact swapped_rows
  /\ round1 (mean (map (fun r => Q_of_float (cpu64 (pipeline64 r)))
                     rising_rows))
     = Some (1 # 10)%Q.
Proof.
  split; [exact (Permutation_rev rising_rows) |].
  split; [do 2 eexists; repeat split; vm_compute; reflexivity |].
  split; [do 2 eexists; repeat split; vm_compute; reflexivity |].
  assert (Hdiff : forall r r' : result summary64,
             (exists avgs avgs',
                 r = Ok (Summary64 2 avgs) /\ r' = Ok (Summary64 2 avgs')
                 /\ nth_error avgs 0 = Some 0%float
                 /\ nth_error avgs' 0 = Some 0.1%float) ->
             r <> r').
  { intros r r' (avgs & avgs' & -> & -> & H0 & H1) E.
    injection E as E. rewrite E, H1 in H0.
    apply (f_equal (fun x => match x with
                             | Some y => PrimFloat.eqb y 0
                             | None => false
                             end)) in H0.
    vm_compute in H0. discriminate H0. }
  split; [apply Hdiff; do 2 eexists; repeat split; vm_compute; reflexivity |].
  split; [apply Hdiff; do 2 eexists; repeat split; vm_compute; reflexivity |].
  vm_compute. reflexivity.
Qed.

(** ** The end-to-end scenario *)

(** C2: the pipeline file has two markers and two data lines, tagged
    seconds 0 and 1, with %CPU 10 and 20; the server file the same seconds
    with 5 and 15; the database file two backends at second 0 (1 and 2)
    and one at second 1 (3).  Whatever the memory of the host, the merged
    table has exactly two rows, its row of second 0 has DB %CPU 3, and
    the average pipeline %CPU of the summary is 15.0. *)
Theorem end_to_end_scenario (machine_mem : Z) :
  exists p0 p1 s0 s1 d0 d1 d2 r0 r1 avgs,
    List.length (filter (fun l => negb (is_data_line l))
                   [java_line "10.00"; marker_line; java_line "20.00";
                    marker_line]) = 2%nat
    /\ parsed_df scenario_files machine_mem pipeline_path Pipeline
       = Ok [(0, p0); (1, p1)]
    /\ cell_is (cpu p0) 10 /\ cell_is (cpu p1) 20
    /\ parsed_df scenario_files machine_mem server_path Server
       = Ok [(0, s0); (1, s1)]
    /\ cell_is (cpu s0) 5 /\ cell_is (cpu s1) 15
    /\ parsed_df scenario_files machine_mem database_path DB
       = Ok [(0, d0); (0, d1); (1, d2)]
    /\ cell_is (cpu d0) 1 /\ cell_is (cpu d1) 2 /\ cell_is (cpu d2) 3
    /\ graph_pidstat scenario_files machine_mem "4" "small"
         "/tmp/hapi-performance/"
       = Ok ([r0; r1], Summary 1 avgs)
    /\ fst r0 = 0 /\ fst r1 = 1
    /\ cell_is (cpu (db_of r0)) 3
    /\ nth_error avgs 0 = Some (Some (150 # 10)%Q)
    /\ cell_is (average [r0; r1] (fun r => cpu (pipeline_of r))) 15.
Proof.
  do 10 eexists.
  split; [reflexivity |].
  split; [vm_compute; reflexivity |].
  split; [cell_value |]. split; [cell_value |].
  split; [vm_compute; reflexivity |].
  split; [cell_value |]. split; [cell_value |].
  split; [vm_compute; reflexivity |].
  split; [cell_value |]. split; [cell_value |]. split; [cell_value |].
  split; [vm_compute; reflexivity |].
  split; [reflexivity |]. split; [reflexivity |].
  split; [cell_value |]. split; [reflexivity |].
  cell_value.
Qed.

(** * Further properties of the parser *)

(** ** The columns kept by the deletions *)

Lemma del_slices_nth (usage : list string) :
  nth_error (del_slices usage) 0 = nth_error usage 8
  /\ nth_error (del_slices usage) 1 = nth_error usage 14
  /\ nth_error (del_slices usage) 2 = nth_error usage 15
  /\ nth_error (del_slices usage) 3 = nth_error usage 16
  /\ (List.length (del_slices usage) <= 4)%nat.
Proof.
  do 17 (destruct usage as [| ? usage];
         [repeat split; try reflexivity; simpl; lia |]).
  repeat split; try reflexivity; simpl; lia.
Qed.

Lemma del_slices_prefix (usage rest : list string) :
  (17 <= List.length usage)%nat ->
  del_slices (usage ++ rest) = del_slices usage.
Proof.
  do 17 (destruct usage as [| ? usage]; [simpl; lia |]).
  reflexivity.
Qed.

(** The three deletions keep, of the tokens of a line, those at positions
    8, 14, 15 and 16 (%CPU, %MEM, kB_rd/s, kB_wr/s), in this order and
    where they exist, and nothing else: the tokens from position 17 on,
    the words of the command among them, never reach the table. *)
Theorem del_slices_columns (usage : list string) :
  nth_error (del_slices usage) 0 = nth_error usage 8
  /\ nth_error (del_slices usage) 1 = nth_error usage 14
  /\ nth_error (del_slices usage) 2 = nth_error usage 15
  /\ nth_error (del_slices usage) 3 = nth_error usage 16
  /\ (List.length (del_slices usage) <= 4)%nat
  /\ forall rest, (17 <= List.length usage)%nat ->
       del_slices (usage ++ rest) = del_slices usage.
Proof.
  destruct (del_slices_nth usage) as (H0 & H1 & H2 & H3 & H4).
  repeat (split; [assumption |]).
  intros rest. apply del_slices_prefix.
Qed.

(** A line of 20 tokens and the same line with a longer command. *)
Lemma del_slices_columns_witness :
  del_slices (split (java_line "10.00") ++ ["--verbose"])
  = del_slices (split (java_line "10.00")).
Proof.
  refine (proj2 (proj2 (proj2 (proj2 (proj2
            (del_slices_columns (split (java_line "10.00")))))))
            ["--verbose"] _).
  vm_compute. lia.
Defined.

(** ** The lines that the loop passes over *)

Lemma read_usage_without_ignored (type : role) (f : list string) :
  forall seconds_elapsed total_usage,
    read_usage type (without_ignored f) seconds_elapsed total_usage
    = read_usage type f seconds_elapsed total_usage.
Proof.
  unfold without_ignored.
  induction f as [| line f IH]; intros s acc; [reflexivity |].
  cbn [filter]. destruct line as [| c line'].
  - reflexivity.
  - cbn [is_ignored_line]. destruct (isdigit c) eqn:Ed; cbn [negb andb].
    + cbn [read_usage first_char bind]. rewrite Ed.
      destruct (skipped type (split (String c line'))) as [[|] | e];
        cbn [bind]; [apply IH | apply IH | reflexivity].
    + destruct (Ascii.eqb c "#"%char) eqn:Eh; cbn [negb].
      * cbn [read_usage first_char bind]. rewrite Ed, Eh. apply IH.
      * rewrite IH. cbn [read_usage first_char bind]. rewrite Ed, Eh.
        reflexivity.
Qed.

(** The lines whose first character is neither a digit nor ['#'] (the
    banner of pidstat, blank lines, the averages at the end) change
    nothing: the table of a file, for every role, is the table of the file
    without them, with the same seconds, values and exceptions. *)
Theorem ignored_lines_change_nothing (fs fs' : filesystem) (machine_mem : Z)
    (file_name : string) (type : role) (f : list string) :
  fs file_name = Some f ->
  fs' file_name = Some (without_ignored f) ->
  make_pidstat_tables fs machine_mem file_name type
  = make_pidstat_tables fs' machine_mem file_name type.
Proof.
  intros Hf Hf'. unfold make_pidstat_tables, parsed_df, open.
  rewrite Hf, Hf'. cbn [bind]. rewrite read_usage_without_ignored.
  reflexivity.
Qed.

(** ** Parsing a file in two parts *)

Lemma markers_cons (line : string) (f : list string) :
  markers (line :: f)
  = (if is_marker_line line then 1 else 0) + markers f.
Proof.
  unfold markers. cbn [filter].
  destruct (is_marker_line line); cbn [List.length]; lia.
Qed.

Lemma markers_nonneg (f : list string) : 0 <= markers f.
Proof.
  unfold markers. lia.
Qed.

(** The loop over the lines of [f1] followed by those of [f2] is the loop
    over [f1], then the loop over [f2] from the rows read and with the
    counter advanced by the marker lines of [f1]. *)
Theorem read_usage_app (type : role) (f1 f2 : list string) :
  forall seconds_elapsed total_usage,
    read_usage type (f1 ++ f2) seconds_elapsed total_usage
    = (rows <- read_usage type f1 seconds_elapsed total_usage ;;
       read_usage type f2 (seconds_elapsed + markers f1) rows).
Proof.
  induction f1 as [| line f1 IH]; intros s acc.
  - cbn [app read_usage bind]. unfold markers. cbn.
    rewrite Z.add_0_r. reflexivity.
  - rewrite markers_cons. cbn [app read_usage].
    destruct line as [| c line']; [reflexivity |].
    cbn [first_char bind is_marker_line].
    destruct (isdigit c) eqn:Ed; cbn [negb andb].
    + destruct (skipped type (split (String c line'))) as [[|] | e];
        cbn [bind]; [rewrite IH | rewrite IH | reflexivity];
        rewrite Z.add_0_l; reflexivity.
    + destruct (Ascii.eqb c "#"%char); rewrite IH.
      * rewrite Z.add_assoc. reflexivity.
      * rewrite Z.add_0_l. reflexivity.
Qed.

(** ** The seconds of a table and the marker lines *)

Lemma read_usage_bounds (type : role) (f : list string) :
  forall seconds_elapsed rows,
    read_usage type f seconds_elapsed [] = Ok rows ->
    Forall (fun r => seconds_elapsed <= fst r <= seconds_elapsed + markers f)
           rows.
Proof.
  induction f as [| line f IH]; intros s rows H.
  - injection H as <-. constructor.
  - rewrite markers_cons. pose proof (markers_nonneg f) as Hm.
    cbn [read_usage] in H.
    destruct line as [| c line']; [discriminate H |].
    cbn [first_char bind is_marker_line] in *.
    destruct (isdigit c) eqn:Ed; cbn [negb andb] in *.
    + destruct (skipped type (split (String c line'))) as [[|] | e];
        cbn [bind] in H; [| | discriminate H].
      * apply IH in H. eapply Forall_impl; [| exact H].
        cbv beta. intros; lia.
      * rewrite read_usage_acc in H.
        destruct (read_usage type f s []) as [rows' | e] eqn:Hr;
          cbn [bind] in H; [| discriminate H].
        injection H as <-. constructor; [cbn [fst]; lia |].
        apply IH in Hr. eapply Forall_impl; [| exact Hr].
        cbv beta. intros; lia.
    + destruct (Ascii.eqb c "#"%char); apply IH in H;
        (eapply Forall_impl; [| exact H]); cbv beta; intros; lia.
Qed.

(** Every second of a table lies between 0 and the number of marker lines
    of its file: a file with [n] markers gives no second above [n]. *)
Theorem table_seconds_bounded (fs : filesystem) (machine_mem : Z)
    (file_name : string) (type : role) (f : list string)
    (df : table metrics) :
  fs file_name = Some f ->
  make_pidstat_tables fs machine_mem file_name type = Ok df ->
  Forall (fun s => 0 <= s <= markers f) (seconds df).
Proof.
  intros Hf H. apply make_pidstat_tables_Ok in H.
  destruct H as (obs & Hobs & _ & Hsec). rewrite Hsec.
  assert (Hb : Forall (fun s => 0 <= s <= markers f) (seconds obs)).
  { unfold parsed_df, open in Hobs. rewrite Hf in Hobs.
    cbn [bind] in Hobs. apply bind_Ok_inv in Hobs.
    destruct Hobs as (tu & Htu & Hobs).
    apply usage_df_seconds in Hobs. rewrite Hobs.
    rewrite Forall_map. apply read_usage_bounds in Htu.
    eapply Forall_impl; [| exact Htu]. cbv beta. intros; lia. }
  rewrite Forall_forall in Hb |- *. intros s Hs.
  apply Hb. eapply aggregate_seconds_In. exact Hs.
Qed.

(** The banner and the empty lines of a pidstat file change nothing. *)
Lemma ignored_lines_change_nothing_witness :
  make_pidstat_tables banner_files 16 pipeline_path Pipeline
  = make_pidstat_tables plain_files 16 pipeline_path Pipeline.
Proof.
  refine (ignored_lines_change_nothing banner_files plain_files 16
            pipeline_path Pipeline _ _ _); reflexivity.
Defined.

(** The seconds of the pipeline table of the scenario, a file with two
    markers. *)
Lemma table_seconds_bounded_witness :
  exists df,
    make_pidstat_tables scenario_files 16 pipeline_path Pipeline = Ok df
    /\ Forall (fun s => 0 <= s <= 2) (seconds df).
Proof.
  destruct (make_pidstat_tables scenario_files 16 pipeline_path Pipeline)
    as [df | e] eqn:H; [| vm_compute in H; discriminate H].
  exists df. split; [reflexivity |].
  exact (table_seconds_bounded scenario_files 16 pipeline_path Pipeline
           _ df eq_refl H).
Defined.

(** ** The exceptions of the loop *)

Lemma index_from_end3_Ok (usage : list string) :
  (3 <= List.length usage)%nat -> exists t, index_from_end3 usage = Ok t.
Proof.
  intros H. unfold index_from_end3.
  destruct (Nat.ltb_spec (List.length usage) 3) as [Hlt | _]; [lia |].
  destruct (nth_error usage (List.length usage - 3)) as [t |] eqn:E;
    [exists t; reflexivity |].
  apply nth_error_None in E. lia.
Qed.

Lemma index_from_end3_Raise (usage : list string) :
  (List.length usage < 3)%nat -> index_from_end3 usage = Raise IndexError.
Proof.
  intros H. unfold index_from_end3.
  destruct (Nat.ltb_spec (List.length usage) 3) as [_ | Hge];
    [reflexivity | lia].
Qed.

Lemma read_usage_raises_iff (type : role) (f : list string) :
  (forall line, In line f -> line <> EmptyString) ->
  forall seconds_elapsed total_usage,
    (exists e, read_usage type f seconds_elapsed total_usage = Raise e) <->
    (type = DB
     /\ exists line, In line f /\ is_data_line line = true
                     /\ (List.length (split line) < 3)%nat).
Proof.
  induction f as [| line f IH]; intros Hne s acc.
  - split; [intros [e H]; discriminate H | intros (_ & l & [] & _)].
  - assert (Hne' : forall l, In l f -> l <> EmptyString)
      by (intros l Hl; apply Hne; right; exact Hl).
    specialize (IH Hne').
    assert (Hline : line <> EmptyString) by (apply Hne; left; reflexivity).
    destruct line as [| c line']; [congruence |].
    cbn [read_usage first_char bind].
    assert (Htail : forall s' acc',
               (exists e, read_usage type f s' acc' = Raise e) ->
               type = DB
               /\ exists l, In l (String c line' :: f)
                            /\ is_data_line l = true
                            /\ (List.length (split l) < 3)%nat).
    { intros s' acc' H. apply IH in H. destruct H as (Ht & l & Hl & Hd).
      split; [exact Ht |]. exists l. split; [right; exact Hl | exact Hd]. }
    destruct (isdigit c) eqn:Ed.
    + unfold skipped. destruct type; cbn [is_DB bind].
      * split; [apply Htail |]. intros [Ht _]. discriminate Ht.
      * split; [apply Htail |]. intros [Ht _]. discriminate Ht.
      * destruct (Nat.lt_ge_cases (List.length (split (String c line'))) 3)
          as [Hlt | Hge].
        -- rewrite (index_from_end3_Raise _ Hlt). cbn [bind].
           split; [| intros _; exists IndexError; reflexivity].
           intros _. split; [reflexivity |].
           exists (String c line'). split; [left; reflexivity |].
           split; [exact Ed | exact Hlt].
        -- destruct (index_from_end3_Ok _ Hge) as [t Ht]. rewrite Ht.
           cbn [bind].
           assert (Hback :
                     (DB = DB
                      /\ exists l, In l (String c line' :: f)
                                   /\ is_data_line l = true
                                   /\ (List.length (split l) < 3)%nat) ->
                     forall s' acc',
                       exists e, read_usage DB f s' acc' = Raise e).
           { intros (_ & l & [<- | Hl] & Hd & Hlen) s' acc'; [lia |].
             apply IH. split; [reflexivity |]. exists l. auto. }
           destruct (negb (String.eqb t "hapi")); split;
             try apply Htail; intros H; apply Hback; exact H.
    + assert (Hback : (type = DB
                       /\ exists l, In l (String c line' :: f)
                                    /\ is_data_line l = true
                                    /\ (List.length (split l) < 3)%nat) ->
                      forall s' acc',
                        exists e, read_usage type f s' acc' = Raise e).
      { intros (Ht & l & [<- | Hl] & Hd & Hlen) s' acc'.
        - simpl in Hd. congruence.
        - apply IH. split; [exact Ht |]. exists l. auto. }
      destruct (Ascii.eqb c "#"%char); split;
        try apply Htail; intros H; apply Hback; exact H.
Qed.

(** ** Empty tables *)

Lemma read_usage_nil_iff (type : role) (f : list string) :
  forall seconds_elapsed,
    read_usage type f seconds_elapsed [] = Ok [] <->
    (forall line, In line f ->
       line <> EmptyString
       /\ (is_data_line line = true ->
           skipped type (split line) = Ok true)).
Proof.
  induction f as [| line f IH]; intros s.
  - split; [intros _ l [] | reflexivity].
  - cbn [read_usage]. destruct line as [| c line'].
    + split; [discriminate |].
      intros H. destruct (H EmptyString (or_introl eq_refl)) as [Hne _].
      congruence.
    + cbn [first_char bind].
      assert (Hcons : forall s',
                 ~ (isdigit c = true
                    /\ skipped type (split (String c line')) <> Ok true) ->
                 (read_usage type f s' [] = Ok [] <->
                  (forall l, In l (String c line' :: f) ->
                     l <> EmptyString
                     /\ (is_data_line l = true ->
                         skipped type (split l) = Ok true)))).
      { intros s' Hc. rewrite IH. split.
        - intros H l [<- | Hl]; [| apply H; exact Hl].
          split; [discriminate |]. cbn [is_data_line]. intros Hd.
          destruct (skipped type (split (String c line')))
            as [[|] | e] eqn:Es; [reflexivity | |];
            exfalso; apply Hc; split; try assumption; congruence.
        - intros H l Hl. apply H. right. exact Hl. }
      destruct (isdigit c) eqn:Ed.
      * destruct (skipped type (split (String c line'))) as [[|] | e] eqn:Es;
          cbn [bind].
        -- apply Hcons. intros [_ H]. apply H. reflexivity.
        -- rewrite read_usage_acc. split.
           ++ destruct (read_usage type f s []) as [rows | e];
                cbn [bind]; discriminate.
           ++ intros H.
              destruct (H (String c line') (or_introl eq_refl)) as [_ Hs].
              specialize (Hs Ed). congruence.
        -- split; [discriminate |]. intros H.
           destruct (H (String c line') (or_introl eq_refl)) as [_ Hs].
           specialize (Hs Ed). congruence.
      * destruct (Ascii.eqb c "#"%char); apply Hcons;
          intros [H _]; discriminate H.
Qed.

Lemma sum_by_second_nil (df : table metrics) :
  sum_by_second df = [] -> df = [].
Proof.
  intros H. destruct df as [| r df]; [reflexivity |]. exfalso.
  assert (Hin : In (fst r) (seconds (sum_by_second (r :: df))))
    by (apply sum_by_second_In; left; reflexivity).
  rewrite H in Hin. contradiction.
Qed.

(** The table of a file is empty exactly when the loop keeps no line of
    it: no line is empty, and every data line is skipped (which only the
    DB table does, for the lines of other processes).  No exception is
    raised then, whatever the other lines hold. *)
Theorem empty_table_iff (fs : filesystem) (machine_mem : Z)
    (file_name : string) (type : role) (f : list string) :
  fs file_name = Some f ->
  (make_pidstat_tables fs machine_mem file_name type = Ok [] <->
   (forall line, In line f ->
      line <> EmptyString
      /\ (is_data_line line = true ->
          skipped type (split line) = Ok true))).
Proof.
  intros Hf. rewrite <- (read_usage_nil_iff type f 0).
  unfold make_pidstat_tables, parsed_df, open. rewrite Hf. cbn [bind].
  destruct (read_usage type f 0 []) as [tu | e] eqn:Hr; cbn [bind];
    [| split; discriminate].
  split.
  - destruct (usage_df machine_mem tu) as [df | e] eqn:Hu; cbn [bind];
      [| discriminate].
    intros H. injection H as H.
    assert (Hdf : df = []).
    { unfold clamp_df in H. apply map_eq_nil in H.
      unfold aggregate in H. destruct (is_DB type);
        [apply sum_by_second_nil |]; exact H. }
    subst df. apply usage_df_seconds in Hu.
    destruct tu; [reflexivity | discriminate Hu].
  - intros H. injection H as ->. destruct type; reflexivity.
Qed.

(** The DB table of a file without any sample of [hapi]. *)
Lemma empty_table_iff_witness :
  make_pidstat_tables idle_database_files 16 database_path DB = Ok [].
Proof.
  refine (proj2 (empty_table_iff idle_database_files 16 database_path DB
                   _ eq_refl) _).
  intros line Hin.
  repeat (destruct Hin as [<- | Hin];
          [split;
           [discriminate
           | first [intros H; discriminate H | intros _; reflexivity]] |]).
  contradiction.
Defined.

(** ** Where the values of a table come from *)

Lemma Forall2_In_r {A B : Type} (R : A -> B -> Prop) (l : list A)
    (l' : list B) (y : B) :
  Forall2 R l l' -> In y l' -> exists x, In x l /\ R x y.
Proof.
  induction 1 as [| a b l l' Hab _ IH]; intros Hin; [contradiction |].
  destruct Hin as [<- | Hin].
  - exists a. split; [left; reflexivity | exact Hab].
  - destruct (IH Hin) as (x & Hx & HR). exists x. split; [right |]; auto.
Qed.


(** Every row of the frame that [make_pidstat_tables] builds from a file
    (before the summation and the replacement of negative values) comes
    from one data line that the loop kept: its %CPU is the token 8 of the
    line, its MEM the token 14 divided by 100 and multiplied by the memory
    of the host, its read and write rates the tokens 15 and 16, each read
    by [float()], or missing where the line has no such token. *)
Theorem parsed_values_come_from_columns (fs : filesystem) (machine_mem : Z)
    (file_name : string) (type : role) (f : list string)
    (obs : table metrics) :
  fs file_name = Some f ->
  parsed_df fs machine_mem file_name type = Ok obs ->
  Forall
    (fun r =>
       exists line,
         In line f /\ retained type line
         /\ astype_float (nth_error (split line) 8) = Ok (cpu (snd r))
         /\ (exists t v,
               nth_error (split line) 14 = Some t
               /\ float_of_string t = Ok v
               /\ mem (snd r) = Some (v / 100 * inject_Z machine_mem)%Q)
         /\ astype_float (nth_error (split line) 15) = Ok (kb_rd (snd r))
         /\ astype_float (nth_error (split line) 16) = Ok (kb_wr (snd r)))
    obs.
Proof.
  intros Hf H. unfold parsed_df, open in H. rewrite Hf in H.
  cbn [bind] in H. apply bind_Ok_inv in H. destruct H as (tu & Htu & H).
  unfold usage_df in H.
  apply bind_Ok_inv in H. destruct H as (raw & Hraw & H).
  apply bind_Ok_inv in H. destruct H as (dfm & Hmem & Hcast).
  apply DataFrame_Ok in Hraw. subst raw.
  apply mapM_Ok_Forall2 in Hmem. apply mapM_Ok_Forall2 in Hcast.
  rewrite Forall_forall. intros r Hr.
  destruct (Forall2_In_r _ _ _ _ Hcast Hr) as ([rr m] & Hrm & Hc).
  destruct (Forall2_In_r _ _ _ _ Hmem Hrm) as (rr' & Hrr & Ha).
  apply in_map_iff in Hrr. destruct Hrr as (u & <- & Hu).
  destruct (read_usage_origin _ _ _ _ _ Htu Hu) as (line & Hl & Hret & Hsnd).
  destruct (del_slices_nth (split line)) as (H0 & H1 & H2 & H3 & _).
  unfold apply_mem in Ha. apply bind_Ok_inv in Ha.
  destruct Ha as (m' & Hm' & Ha). injection Ha as <- <-.
  unfold cast_row in Hc. cbn [pad_row raw_cpu raw_rd raw_wr raw_mem] in *.
  rewrite Hsnd, ?H0, ?H1, ?H2, ?H3 in *.
  apply bind_Ok_inv in Hc. destruct Hc as (c & Hcpu & Hc).
  apply bind_Ok_inv in Hc. destruct Hc as (rd & Hrd & Hc).
  apply bind_Ok_inv in Hc. destruct Hc as (wr & Hwr & Hc).
  injection Hc as <-. cbn [snd cpu mem kb_rd kb_wr].
  exists line. split; [exact Hl |]. split; [exact Hret |].
  split; [exact Hcpu |]. split; [| split; assumption].
  unfold mem_to_gb in Hm'.
  destruct (nth_error (split line) 14) as [t |]; [| discriminate Hm'].
  apply bind_Ok_inv in Hm'. destruct Hm' as (v & Hv & Hm').
  injection Hm' as <-. exists t, v. auto.
Qed.

(** The rows of the pipeline frame of the scenario. *)
Lemma parsed_values_come_from_columns_witness :
  exists obs,
    parsed_df scenario_files 16 pipeline_path Pipeline = Ok obs
    /\ List.length obs = 2%nat
    /\ Forall
         (fun r =>
            exists line,
              In line [java_line "10.00"; marker_line; java_line "20.00";
                       marker_line]
              /\ retained Pipeline line
              /\ astype_float (nth_error (split line) 8) = Ok (cpu (snd r))
              /\ (exists t v,
                    nth_error (split line) 14 = Some t
                    /\ float_of_string t = Ok v
                    /\ mem (snd r) = Some (v / 100 * inject_Z 16)%Q)
              /\ astype_float (nth_error (split line) 15)
                 = Ok (kb_rd (snd r))
              /\ astype_float (nth_error (split line) 16)
                 = Ok (kb_wr (snd r)))
         obs.
Proof.
  destruct (parsed_df scenario_files 16 pipeline_path Pipeline)
    as [obs | e] eqn:H; [| vm_compute in H; discriminate H].
  exists obs. split; [reflexivity |].
  split; [vm_compute in H; injection H as <-; reflexivity |].
  exact (parsed_values_come_from_columns scenario_files 16 pipeline_path
           Pipeline _ obs eq_refl H).
Defined.

(** ** Well-formed files *)

Lemma mapM_Ok_Forall {A B : Type} (f : A -> result B) (P : B -> Prop)
    (l : list A) :
  Forall (fun x => exists y, f x = Ok y /\ P y) l ->
  exists l', mapM f l = Ok l' /\ Forall P l'.
Proof.
  induction 1 as [| a l (b & Hb & HP) _ (l' & Hl' & HPl')].
  - exists []. split; [reflexivity | constructor].
  - exists (b :: l'). cbn [mapM]. rewrite Hb. cbn [bind]. rewrite Hl'.
    split; [reflexivity | constructor; assumption].
Qed.

Lemma read_usage_well_formed (type : role) (f : list string) :
  Forall (well_formed type) f ->
  forall seconds_elapsed,
    exists rows,
      read_usage type f seconds_elapsed [] = Ok rows
      /\ Forall full_row rows.
Proof.
  induction 1 as [| line f [Hne Hwf] _ IH]; intros s.
  - exists []. split; [reflexivity | constructor].
  - cbn [read_usage]. destruct line as [| c line']; [congruence |].
    cbn [first_char bind]. cbn [is_data_line] in Hwf.
    destruct (isdigit c).
    + destruct (Hwf eq_refl) as (skip & Hskip & Hcols). rewrite Hskip.
      cbn [bind]. destruct skip; [apply IH |].
      rewrite read_usage_acc. destruct (IH s) as (rows & Hrows & Hfull).
      rewrite Hrows. cbn [bind app].
      eexists. split; [reflexivity |]. constructor; [| exact Hfull].
      destruct (Hcols eq_refl) as (N8 & N14 & N15 & N16).
      destruct (del_slices_nth (split (String c line')))
        as (H0 & H1 & H2 & H3 & Hlen).
      unfold full_row. cbn [snd]. rewrite H0, H1, H2, H3.
      split; [| auto].
      destruct N16 as (t & v & Ht & _). rewrite <- H3 in Ht.
      assert (3 < List.length (del_slices (split (String c line'))))%nat
        by (apply nth_error_Some; congruence).
      lia.
    + destruct (Ascii.eqb c "#"%char); apply IH.
Qed.

Lemma list_max_all_five (l : list nat) :
  l <> [] -> Forall (fun n => n = 5%nat) l -> list_max l = 5%nat.
Proof.
  intros Hne Hall. destruct l as [| n l]; [congruence |].
  inversion Hall as [| a t Hn Ht]; subst.
  assert (list_max l <= 5)%nat.
  { apply list_max_le. eapply Forall_impl; [| exact Ht].
    cbv beta. intros; lia. }
  cbn [list_max fold_right]. fold (list_max l). lia.
Qed.

Lemma usage_df_full_rows (machine_mem : Z) (total_usage : list usage_row) :
  Forall full_row total_usage ->
  exists df, usage_df machine_mem total_usage = Ok df.
Proof.
  intros Hfull. unfold usage_df.
  assert (Hdf : DataFrame total_usage = Ok (map pad_row total_usage)).
  { unfold DataFrame. destruct total_usage as [| u tu]; [reflexivity |].
    rewrite list_max_all_five; [reflexivity | discriminate |].
    rewrite Forall_map. eapply Forall_impl; [| exact Hfull].
    intros r (Hlen & _). unfold row_width. lia. }
  rewrite Hdf. cbn [bind].
  destruct (mapM_Ok_Forall (apply_mem machine_mem)
              (fun rm => numeral (raw_cpu (fst rm))
                         /\ numeral (raw_rd (fst rm))
                         /\ numeral (raw_wr (fst rm)))
              (map pad_row total_usage)) as (dfm & Hdfm & Hnum).
  { rewrite Forall_map. eapply Forall_impl; [| exact Hfull].
    intros u (_ & N0 & (t & v & Ht & Hv) & N2 & N3).
    unfold apply_mem, mem_to_gb, pad_row. cbn [raw_mem].
    rewrite Ht, Hv. cbn [bind]. eexists. split; [reflexivity |].
    cbn [fst raw_cpu raw_rd raw_wr]. auto. }
  rewrite Hdfm. cbn [bind].
  destruct (mapM_Ok_Forall cast_row (fun _ => True) dfm) as (df & Hdf' & _).
  { eapply Forall_impl; [| exact Hnum].
    intros [rr m] ((t0 & v0 & Ht0 & Hv0) & (t2 & v2 & Ht2 & Hv2)
                   & (t3 & v3 & Ht3 & Hv3)).
    cbn [fst] in *. unfold cast_row, astype_float.
    rewrite Ht0, Ht2, Ht3, Hv0, Hv2, Hv3. cbn [bind].
    eexists. split; [reflexivity | exact I]. }
  exists df. exact Hdf'.
Qed.

Lemma DataFrame_full_rows (total_usage : list usage_row) :
  Forall full_row total_usage ->
  DataFrame total_usage = Ok (map pad_row total_usage).
Proof.
  intros Hfull. unfold DataFrame.
  destruct total_usage as [| u tu]; [reflexivity |].
  rewrite list_max_all_five; [reflexivity | discriminate |].
  rewrite Forall_map. eapply Forall_impl; [| exact Hfull].
  intros r (Hlen & _). unfold row_width. lia.
Qed.

(** ** The memory of the host *)

(** [get_machine_mem] fails with an [IndexError] when the output of grep
    has fewer than two words (no MemTotal line), and with a [ValueError]
    when the second word is not an integer.  When the second word is a
    count [kb] of kB below 2^53 in absolute value, it returns [kb]
    divided by 1000000 with the fraction dropped, a number below 2^34:
    for a count that is not negative the [m] with
    [1000000 * m <= kb < 1000000 * (m + 1)], so 0 below one million kB;
    for a negative one the quotient rounded towards 0. *)
Theorem get_machine_mem_spec (stdout : string) :
  ((List.length (split_bytes stdout) < 2)%nat ->
   get_machine_mem stdout = Raise IndexError)
  /\ (forall t, nth_error (split_bytes stdout) 1 = Some t ->
        int_of_bytes t = Raise ValueError ->
        get_machine_mem stdout = Raise ValueError)
  /\ (forall t kb, nth_error (split_bytes stdout) 1 = Some t ->
        int_of_bytes t = Ok kb ->
        Z.abs kb < 2 ^ 53 ->
        exists m,
          get_machine_mem stdout = Ok m
          /\ Z.abs m < 2 ^ 34
          /\ (0 <= kb -> 0 <= m /\ 1000000 * m <= kb < 1000000 * (m + 1))
          /\ (kb <= 0 -> m <= 0 /\ 1000000 * (m - 1) < kb <= 1000000 * m)).
Proof.
  unfold get_machine_mem, index1. split; [| split].
  - intros Hlen.
    destruct (nth_error (split_bytes stdout) 1) as [t |] eqn:E;
      [| reflexivity].
    assert (1 < List.length (split_bytes stdout))%nat
      by (apply nth_error_Some; congruence).
    lia.
  - intros t Ht Hv. rewrite Ht. cbn [bind]. rewrite Hv. reflexivity.
  - intros t kb Ht Hkb Hrange. rewrite Ht. cbn [bind]. rewrite Hkb.
    cbn [bind]. exists (Z.quot kb 1000000). split; [reflexivity |].
    assert (H53 : 2 ^ 53 = 9007199254740992) by reflexivity.
    assert (H34 : 2 ^ 34 = 17179869184) by reflexivity.
    rewrite H53 in Hrange. rewrite H34.
    pose proof (Z.quot_rem' kb 1000000) as Hqr.
    destruct (Z.le_ge_cases 0 kb) as [Hpos | Hneg].
    + pose proof (Z.rem_bound_pos kb 1000000 Hpos). lia.
    + pose proof (Z.rem_bound_pos_neg kb 1000000). lia.
Qed.

(** A host with 16384256 kB: 16. *)
Lemma get_machine_mem_spec_witness :
  get_machine_mem meminfo_16g = Ok 16
  /\ 1000000 * 16 <= 16384256 < 1000000 * (16 + 1).
Proof.
  destruct (proj2 (proj2 (get_machine_mem_spec meminfo_16g))
              "16384256" 16384256 eq_refl eq_refl)
    as (m & Hm & _ & Hb & _); [reflexivity |].
  vm_compute in Hm. injection Hm as <-.
  split; [reflexivity |]. apply Hb. lia.
Defined.

Lemma usage_df_host_Ok (meminfo : string) (machine_mem : Z)
    (total_usage : list usage_row) :
  get_machine_mem meminfo = Ok machine_mem ->
  usage_df_host meminfo total_usage = usage_df machine_mem total_usage.
Proof.
  intros Hm. unfold usage_df_host, usage_df.
  destruct (DataFrame total_usage) as [raw | e]; cbn [bind];
    [| reflexivity].
  assert (E : mapM (apply_mem_host meminfo) raw
              = mapM (apply_mem machine_mem) raw).
  { induction raw as [| r raw IH]; [reflexivity |].
    cbn [mapM]. rewrite IH. f_equal.
    unfold apply_mem_host, apply_mem, mem_to_gb_host, mem_to_gb.
    rewrite Hm. destruct (raw_mem r) as [t |]; [| reflexivity].
    destruct (float_of_string t); reflexivity. }
  rewrite E. reflexivity.
Qed.


(** When the query of the host fails, [make_pidstat_tables] can only
    return the empty table: the query is made once a row has its MEM
    value read, so a file in which the loop keeps no line still gives its
    (empty) table, and any row makes the call fail. *)
Theorem host_failure_is_fatal_with_rows (fs : filesystem) (meminfo : string)
    (e : exn) (file_name : string) (type : role) (f : list string) :
  get_machine_mem meminfo = Raise e ->
  fs file_name = Some f ->
  (forall df,
      make_pidstat_tables_host fs meminfo file_name type = Ok df ->
      df = [])
  /\ (read_usage type f 0 [] = Ok [] ->
      make_pidstat_tables_host fs meminfo file_name type = Ok []).
Proof.
  intros Hm Hf. unfold make_pidstat_tables_host, open. rewrite Hf.
  cbn [bind]. split.
  - intros df H.
    apply bind_Ok_inv in H. destruct H as (tu & _ & H).
    apply bind_Ok_inv in H. destruct H as (obs & Hobs & H).
    injection H as <-.
    unfold usage_df_host in Hobs.
    apply bind_Ok_inv in Hobs. destruct Hobs as (raw & _ & Hobs).
    apply bind_Ok_inv in Hobs. destruct Hobs as (dfm & Hdfm & Hobs).
    destruct raw as [| r raw].
    + injection Hdfm as <-. injection Hobs as <-.
      destruct type; reflexivity.
    + exfalso. cbn [mapM] in Hdfm.
      apply bind_Ok_inv in Hdfm. destruct Hdfm as (rm & Hrm & _).
      unfold apply_mem_host, mem_to_gb_host in Hrm.
      destruct (raw_mem r) as [t |]; [| discriminate Hrm].
      destruct (float_of_string t); [| discriminate Hrm].
      cbn [bind] in Hrm. rewrite Hm in Hrm. discriminate Hrm.
  - intros ->. destruct type; reflexivity.
Qed.

(** No MemTotal line, and the database file without any sample of
    [hapi]. *)
Lemma host_failure_is_fatal_with_rows_witness :
  make_pidstat_tables_host idle_database_files "" database_path DB = Ok []
  /\ forall df,
       make_pidstat_tables_host idle_database_files "" database_path DB
       = Ok df ->
       df = [].
Proof.
  split.
  - refine (proj2 (host_failure_is_fatal_with_rows idle_database_files ""
                     IndexError database_path DB _ eq_refl eq_refl) _).
    reflexivity.
  - exact (proj1 (host_failure_is_fatal_with_rows idle_database_files ""
                    IndexError database_path DB _ eq_refl eq_refl)).
Defined.







(** ** Well-formed files on a host that answers *)

(** On a host whose MemTotal is a count of kB below 2^53, and on a file
    whose lines are well formed for the table asked, nothing is raised:
    [make_pidstat_tables] returns a table. *)
Theorem well_formed_file_parses (fs : filesystem) (meminfo t : string)
    (kb : Z) (file_name : string) (type : role) (f : list string) :
  nth_error (split_bytes meminfo) 1 = Some t ->
  int_of_bytes t = Ok kb ->
  Z.abs kb < 2 ^ 53 ->
  fs file_name = Some f ->
  Forall (well_formed type) f ->
  exists df, make_pidstat_tables_host fs meminfo file_name type = Ok df.
Proof.
  intros Ht Hkb _ Hf Hwf.
  assert (Hm : get_machine_mem meminfo = Ok (Z.quot kb 1000000)).
  { unfold get_machine_mem, index1. rewrite Ht. cbn [bind]. rewrite Hkb.
    reflexivity. }
  unfold make_pidstat_tables_host, open. rewrite Hf. cbn [bind].
  destruct (read_usage_well_formed type f Hwf 0) as (rows & Hrows & Hfull).
  rewrite Hrows. cbn [bind]. rewrite (usage_df_host_Ok _ _ _ Hm).
  destruct (usage_df_full_rows (Z.quot kb 1000000) rows Hfull) as (df & Hdf).
  rewrite Hdf. cbn [bind]. eexists. reflexivity.
Qed.

(** The files of the scenario on a host with 16384256 kB. *)
Lemma well_formed_file_parses_witness :
  (exists df,
      make_pidstat_tables_host scenario_files meminfo_16g pipeline_path
        Pipeline = Ok df)
  /\ (exists df,
        make_pidstat_tables_host mixed_database_files meminfo_16g
          database_path DB = Ok df).
Proof.
  split.
  - refine (well_formed_file_parses scenario_files meminfo_16g "16384256"
              16384256 pipeline_path Pipeline _ eq_refl eq_refl _ eq_refl _);
      [reflexivity |].
    repeat (constructor; [well_formed_line |]). constructor.
  - refine (well_formed_file_parses mixed_database_files meminfo_16g
              "16384256" 16384256 database_path DB _ eq_refl eq_refl _
              eq_refl _); [reflexivity |].
    repeat (constructor; [well_formed_line |]). constructor.
Defined.

(** ** The IndexError of make_pidstat_tables *)

Lemma int_of_bytes_raises (x : string) (e : exn) :
  int_of_bytes x = Raise e -> e = ValueError.
Proof.
  unfold int_of_bytes.
  destruct (match strip x with
            | String "-"%char s' => (true, s')
            | String "+"%char s' => (false, s')
            | s => (false, s)
            end) as [neg body].
  destruct (int_digits false 0 body); congruence.
Qed.

(** [get_machine_mem] raises an [IndexError] only for want of the second
    word. *)
Lemma get_machine_mem_IndexError (stdout : string) :
  get_machine_mem stdout = Raise IndexError <->
  (List.length (split_bytes stdout) < 2)%nat.
Proof.
  unfold get_machine_mem, index1.
  destruct (nth_error (split_bytes stdout) 1) as [t |] eqn:E; cbn [bind].
  - assert (1 < List.length (split_bytes stdout))%nat
      by (apply nth_error_Some; congruence).
    split; [| lia].
    destruct (int_of_bytes t) as [kb | e] eqn:Ekb; cbn [bind];
      [discriminate |].
    apply int_of_bytes_raises in Ekb. subst e. discriminate.
  - apply nth_error_None in E. split; [intros _; lia | reflexivity].
Qed.

Lemma apply_mem_host_raises (meminfo : string) (r : raw_row) (e : exn) :
  apply_mem_host meminfo r = Raise e ->
  e = ValueError \/ e = TypeError \/ get_machine_mem meminfo = Raise e.
Proof.
  unfold apply_mem_host, mem_to_gb_host.
  destruct (raw_mem r) as [s |]; cbn [bind].
  - destruct (float_of_string s) eqn:E; cbn [bind].
    + destruct (get_machine_mem meminfo) as [m | e'] eqn:Em; cbn [bind];
        [discriminate |].
      intros H; injection H as <-. right. right. reflexivity.
    + intros H; injection H as <-. left.
      eapply float_of_string_raises; eauto.
  - intros H; injection H as <-. right. left. reflexivity.
Qed.

Lemma usage_df_host_raises (meminfo : string) (total_usage : list usage_row)
    (e : exn) :
  usage_df_host meminfo total_usage = Raise e ->
  e = ValueError \/ e = TypeError \/ get_machine_mem meminfo = Raise e.
Proof.
  unfold usage_df_host.
  destruct (DataFrame total_usage) as [raw | e0] eqn:Hraw; cbn [bind].
  - destruct (mapM (apply_mem_host meminfo) raw) as [dfm | e1] eqn:Hm;
      cbn [bind].
    + intros H. apply mapM_Raise_inv in H. destruct H as (y & _ & Hy).
      left. eapply cast_row_raises; eauto.
    + intros H; injection H as <-.
      apply mapM_Raise_inv in Hm. destruct Hm as (y & _ & Hy).
      eapply apply_mem_host_raises; eauto.
  - intros H; injection H as <-. left.
    unfold DataFrame in Hraw. destruct total_usage; [discriminate |].
    destruct (Nat.eqb _ 5); congruence.
Qed.

(** The [IndexError] of [make_pidstat_tables] on the lines of a file (none
    of which is empty) has two origins.  When grep prints two words or
    more, [mem_info[1]] exists and the only one is [usage[-3]]: the error
    is raised exactly when the table is the DB one and some data line has
    fewer than three tokens, and never for the Pipeline and Server tables.
    When grep prints fewer than two words, [get_machine_mem] raises it at
    the first MEM value: on a well-formed file with a row, for every
    table. *)
Theorem index_error_iff (fs : filesystem) (meminfo : string)
    (file_name : string) (type : role) (f : list string) :
  fs file_name = Some f ->
  (forall line, In line f -> line <> EmptyString) ->
  ((2 <= List.length (split_bytes meminfo))%nat ->
   (make_pidstat_tables_host fs meminfo file_name type = Raise IndexError
    <->
    (type = DB
     /\ exists line, In line f /\ is_data_line line = true
                     /\ (List.length (split line) < 3)%nat)))
  /\ ((List.length (split_bytes meminfo) < 2)%nat ->
      Forall (well_formed type) f ->
      read_usage type f 0 [] <> Ok [] ->
      make_pidstat_tables_host fs meminfo file_name type = Raise IndexError).
Proof.
  intros Hf Hne. unfold make_pidstat_tables_host, open.
  rewrite Hf. cbn [bind]. split.
  - intros Hwords.
    rewrite <- (read_usage_raises_iff type f Hne 0 []).
    destruct (read_usage type f 0 []) as [tu | e] eqn:Hr; cbn [bind].
    + split; [| intros [e He]; discriminate He].
      destruct (usage_df_host meminfo tu) as [df | e] eqn:Hu; cbn [bind];
        [discriminate |].
      intros H. injection H as ->.
      apply usage_df_host_raises in Hu.
      destruct Hu as [Hu | [Hu | Hu]]; try discriminate Hu.
      apply get_machine_mem_IndexError in Hu. lia.
    + apply read_usage_raises in Hr. subst e.
      split; [intros _; exists IndexError; reflexivity | reflexivity].
  - intros Hwords Hwf Hrows.
    destruct (read_usage_well_formed type f Hwf 0) as (rows & Hr & Hfull).
    rewrite Hr in Hrows |- *. cbn [bind].
    destruct rows as [| u tu]; [congruence |].
    unfold usage_df_host. rewrite (DataFrame_full_rows _ Hfull).
    cbn [bind map mapM].
    inversion Hfull as [| u' tu' (_ & _ & (t & v & Ht & Hv) & _) _]; subst.
    unfold apply_mem_host at 1, mem_to_gb_host, pad_row. cbn [raw_mem].
    rewrite Ht. cbn [bind]. rewrite Hv. cbn [bind].
    apply get_machine_mem_IndexError in Hwords. rewrite Hwords.
    reflexivity.
Qed.

(** A data line of one token in the database file, on a host with
    16384256 kB; and the pipeline file of the scenario on a host whose
    [/proc/meminfo] has no MemTotal line. *)
Lemma index_error_iff_witness :
  make_pidstat_tables_host lonely_files meminfo_16g database_path DB
  = Raise IndexError
  /\ make_pidstat_tables_host scenario_files "" pipeline_path Pipeline
     = Raise IndexError.
Proof.
  split.
  - refine (proj2 (proj1 (index_error_iff lonely_files meminfo_16g
                            database_path DB
                            [hapi_line "1.00" "4.00"; lonely_line]
                            eq_refl _) _) _).
    + intros l [<- | [<- | []]]; discriminate.
    + vm_compute. lia.
    + split; [reflexivity |]. exists lonely_line.
      split; [right; left; reflexivity |]. split; [reflexivity |].
      vm_compute. lia.
  - refine (proj2 (index_error_iff scenario_files "" pipeline_path Pipeline
                     _ eq_refl _) _ _ _).
    + intros l [<- | [<- | [<- | [<- | []]]]]; discriminate.
    + vm_compute. lia.
    + repeat (constructor; [well_formed_line |]). constructor.
    + vm_compute. discriminate.
Defined.

(** ** The rows of the merged table *)

Lemma merge_all_seconds_rows (pipeline_df server_df db_df : table metrics)
    (r : Z * stats) :
  In r (merge_all pipeline_df server_df db_df) <->
  In (fst r, pipeline_of r) pipeline_df
  /\ In (fst r, server_of r) server_df
  /\ In (fst r, db_of r) db_df.
Proof.
  unfold merge_all, pipeline_of, server_of, db_of.
  rewrite (merge_In (merge pipeline_df server_df) db_df r).
  rewrite (merge_In pipeline_df server_df (fst r, fst (snd r))).
  cbn [fst snd]. tauto.
Qed.

(** The merged table has a row for every choice of a pipeline row, a
    server row and a database row of the same second, and no other row:
    the values of a merged row are those of the three tables, unchanged. *)
Theorem merged_rows_are_input_rows (pipeline_df server_df db_df
    : table metrics) (r : Z * stats) :
  In r (merge_all pipeline_df server_df db_df) <->
  In (fst r, pipeline_of r) pipeline_df
  /\ In (fst r, server_of r) server_df
  /\ In (fst r, db_of r) db_df.
Proof.
  unfold merge_all, pipeline_of, server_of, db_of. split.
  - intros H. apply merge_In in H. destruct H as [Hps Hd].
    apply merge_In in Hps. cbn [fst snd] in *. tauto.
  - intros (Hp & Hs & Hd). apply merge_In. split; [| exact Hd].
    apply merge_In. cbn [fst snd]. auto.
Qed.

Lemma merge_sorted {A B : Type} (left : table A) (right : table B) :
  StronglySorted Z.le (seconds left) ->
  StronglySorted Z.le (seconds (merge left right)).
Proof.
  induction left as [| l left IH]; intros Hs; [constructor |].
  inversion Hs as [| a t Ht Hl]; subst.
  unfold merge. cbn [flat_map]. fold (merge left right).
  unfold seconds. rewrite map_app, map_map. cbn [fst].
  specialize (IH Ht).
  assert (Hall : Forall (fun k => fst l <= k) (seconds (merge left right))).
  { rewrite Forall_forall. intros k Hk. apply merge_seconds in Hk.
    rewrite Forall_forall in Hl. apply Hl. apply Hk. }
  induction (group right (fst l)) as [| g gs IHg]; [exact IH |].
  cbn [map app]. constructor; [exact IHg |].
  apply Forall_app. split; [| exact Hall].
  rewrite Forall_map. rewrite Forall_forall. intros; lia.
Qed.

Lemma sorted_le_NoDup_lt (l : list Z) :
  StronglySorted Z.le l -> NoDup l -> StronglySorted Z.lt l.
Proof.
  induction 1 as [| a l Hl IH Ha]; intros Hnd; [constructor |].
  inversion Hnd as [| x t Hnotin Hnd']; subst.
  constructor; [apply IH; exact Hnd' |].
  rewrite Forall_forall in Ha |- *. intros k Hk.
  assert (a <> k) by (intros ->; contradiction).
  specialize (Ha k Hk). lia.
Qed.

Lemma sorted_lt_NoDup (l : list Z) : StronglySorted Z.lt l -> NoDup l.
Proof.
  induction 1 as [| a l Hl IH Ha]; constructor; [| exact IH].
  intros Hin. rewrite Forall_forall in Ha. specialize (Ha a Hin). lia.
Qed.

(** The seconds of a table are in non-decreasing order, and those of the
    DB table are distinct. *)
Lemma table_sorted (fs : filesystem) (machine_mem : Z) (file_name : string)
    (type : role) (df : table metrics) :
  make_pidstat_tables fs machine_mem file_name type = Ok df ->
  StronglySorted Z.le (seconds df)
  /\ (type = DB -> NoDup (seconds df)).
Proof.
  intros H. apply make_pidstat_tables_Ok in H.
  destruct H as (obs & Hobs & _ & Hsec). rewrite Hsec.
  destruct (parsed_df_seconds _ _ _ _ _ Hobs) as [_ Hsorted].
  unfold aggregate. destruct type; cbn [is_DB]; split;
    try exact Hsorted; try discriminate.
  - apply StronglySorted_lt_le, sum_by_second_sorted, Hsorted.
  - intros _. apply sorted_lt_NoDup, sum_by_second_sorted, Hsorted.
Qed.

(** The rows of the merged table, those of the CSV file, are in
    non-decreasing order of their second; when no second is repeated in
    the pipeline table nor in the server table, each second has one row,
    in increasing order. *)
Theorem merged_seconds_sorted (fs : filesystem) (machine_mem : Z)
    (num_proc data_description output_results_path : string)
    (pipeline_df server_df : table metrics) (all_stats_df : table stats) :
  make_pidstat_tables fs machine_mem
    (raw_path output_results_path data_description "pipeline" num_proc)
    Pipeline = Ok pipeline_df ->
  make_pidstat_tables fs machine_mem
    (raw_path output_results_path data_description "server" num_proc)
    Server = Ok server_df ->
  merged_stats fs machine_mem num_proc data_description output_results_path
  = Ok all_stats_df ->
  StronglySorted Z.le (seconds all_stats_df)
  /\ (NoDup (seconds pipeline_df) -> NoDup (seconds server_df) ->
      StronglySorted Z.lt (seconds all_stats_df)).
Proof.
  intros Hp Hs H. unfold merged_stats in H. rewrite Hp, Hs in H.
  cbn [bind] in H. apply bind_Ok_inv in H. destruct H as (d & Hd & H).
  injection H as <-. unfold merge_all.
  assert (Hle : StronglySorted Z.le
                  (seconds (merge (merge pipeline_df server_df) d))).
  { apply merge_sorted, merge_sorted. apply (table_sorted _ _ _ _ _ Hp). }
  split; [exact Hle |].
  intros Np Ns. apply sorted_le_NoDup_lt; [exact Hle |].
  apply merge_NoDup; [apply merge_NoDup; assumption |].
  apply (table_sorted _ _ _ _ _ Hd). reflexivity.
Qed.

(** The merged table of the scenario. *)
Lemma merged_seconds_sorted_witness :
  exists all_stats_df,
    merged_stats scenario_files 16 "4" "small" "/tmp/hapi-performance/"
    = Ok all_stats_df
    /\ StronglySorted Z.lt (seconds all_stats_df).
Proof.
  destruct (make_pidstat_tables scenario_files 16 pipeline_path Pipeline)
    as [p | e] eqn:Hp; [| vm_compute in Hp; discriminate Hp].
  destruct (make_pidstat_tables scenario_files 16 server_path Server)
    as [s | e] eqn:Hs; [| vm_compute in Hs; discriminate Hs].
  destruct (merged_stats scenario_files 16 "4" "small"
              "/tmp/hapi-performance/") as [a | e] eqn:H;
    [| vm_compute in H; discriminate H].
  exists a. split; [reflexivity |].
  refine (proj2 (merged_seconds_sorted scenario_files 16 "4" "small"
                   "/tmp/hapi-performance/" p s a Hp Hs H) _ _).
  - vm_compute in Hp. injection Hp as <-. nodup_seconds.
  - vm_compute in Hs. injection Hs as <-. nodup_seconds.
Defined.

(** ** When the run summary is computed *)

(** With the three tables built, the run summary (lines 348 to 452) is
    computed exactly when some second is common to the three tables; the
    total time is then the largest of the common seconds.  When
    [graph_pidstat] gets past the summary, its table is the merge of the
    three and the total time of its summary is that second. *)
Theorem summary_computed_iff (fs : filesystem) (machine_mem : Z)
    (num_proc data_description output_results_path : string)
    (pipeline_df server_df db_df : table metrics) :
  make_pidstat_tables fs machine_mem
    (raw_path output_results_path data_description "pipeline" num_proc)
    Pipeline = Ok pipeline_df ->
  make_pidstat_tables fs machine_mem
    (raw_path output_results_path data_description "server" num_proc)
    Server = Ok server_df ->
  make_pidstat_tables fs machine_mem
    (raw_path output_results_path data_description "database" num_proc)
    DB = Ok db_df ->
  let common k :=
    In k (seconds pipeline_df) /\ In k (seconds server_df)
    /\ In k (seconds db_df) in
  merged_stats fs machine_mem num_proc data_description output_results_path
  = Ok (merge_all pipeline_df server_df db_df)
  /\ ((exists s, run_summary (merge_all pipeline_df server_df db_df) = Ok s)
      <-> exists k, common k)
  /\ (forall s,
        run_summary (merge_all pipeline_df server_df db_df) = Ok s ->
        common (total_time s)
        /\ forall k, common k -> k <= total_time s)
  /\ (forall all_stats_df s,
        graph_pidstat fs machine_mem num_proc data_description
          output_results_path = Ok (all_stats_df, s) ->
        all_stats_df = merge_all pipeline_df server_df db_df
        /\ common (total_time s)
        /\ forall k, common k -> k <= total_time s).
Proof.
  intros Hp Hs Hd common.
  assert (Hm : merged_stats fs machine_mem num_proc data_description
                 output_results_path
               = Ok (merge_all pipeline_df server_df db_df)).
  { unfold merged_stats. rewrite Hp, Hs, Hd. reflexivity. }
  assert (Hsum : forall s,
             run_summary (merge_all pipeline_df server_df db_df) = Ok s ->
             common (total_time s)
             /\ forall k, common k -> k <= total_time s).
  { intros s Hrun. unfold run_summary in Hrun. apply bind_Ok_inv in Hrun.
    destruct Hrun as (total & Htot & Hrun). injection Hrun as <-.
    cbn [total_time].
    destruct (merge_all pipeline_df server_df db_df) as [| r l] eqn:E;
      [discriminate Htot |].
    destruct (series_max_spec (seconds (r :: l))) as (m & Hmx & Hin & Hall);
      [discriminate |].
    rewrite Hmx in Htot. injection Htot as <-. rewrite <- E in Hin, Hall.
    split; [apply merge_all_seconds; exact Hin |].
    intros k Hk. rewrite Forall_forall in Hall. apply Hall.
    apply merge_all_seconds. exact Hk. }
  split; [exact Hm |]. split; [| split; [exact Hsum |]].
  - split.
    + intros (s & H). exists (total_time s). apply (Hsum s H).
    + intros (k & Hk). apply merge_all_seconds in Hk.
      destruct (merge_all pipeline_df server_df db_df) as [| r l] eqn:E;
        [contradiction |].
      destruct (series_max_spec (seconds (r :: l))) as (m & Hmx & _);
        [discriminate |].
      unfold run_summary. rewrite Hmx. cbn [to_int bind].
      eexists. reflexivity.
  - intros a s H. unfold graph_pidstat in H. rewrite Hm in H.
    cbn [bind] in H. apply bind_Ok_inv in H.
    destruct H as (s' & Hrun & H). injection H as <- <-.
    split; [reflexivity |]. apply Hsum. exact Hrun.
Qed.

(** The tables of the scenario: the common seconds are 0 and 1. *)
Lemma summary_computed_iff_witness :
  exists p sv d s,
    make_pidstat_tables scenario_files 16 pipeline_path Pipeline = Ok p
    /\ make_pidstat_tables scenario_files 16 server_path Server = Ok sv
    /\ make_pidstat_tables scenario_files 16 database_path DB = Ok d
    /\ run_summary (merge_all p sv d) = Ok s
    /\ total_time s = 1.
Proof.
  destruct (make_pidstat_tables scenario_files 16 pipeline_path Pipeline)
    as [p | e] eqn:Hp; [| vm_compute in Hp; discriminate Hp].
  destruct (make_pidstat_tables scenario_files 16 server_path Server)
    as [sv | e] eqn:Hs; [| vm_compute in Hs; discriminate Hs].
  destruct (make_pidstat_tables scenario_files 16 database_path DB)
    as [d | e] eqn:Hd; [| vm_compute in Hd; discriminate Hd].
  destruct (proj2 (proj1 (proj2 (summary_computed_iff scenario_files 16 "4"
                                   "small" "/tmp/hapi-performance/" p sv d
                                   Hp Hs Hd))))
    as (s & H).
  - exists 0. vm_compute in Hp. injection Hp as <-.
    vm_compute in Hs. injection Hs as <-.
    vm_compute in Hd. injection Hd as <-.
    cbn. auto.
  - exists p, sv, d, s. repeat (split; [reflexivity |]).
    split; [exact H |].
    vm_compute in Hp. injection Hp as <-.
    vm_compute in Hs. injection Hs as <-.
    vm_compute in Hd. injection Hd as <-.
    vm_compute in H. injection H as <-. reflexivity.
Defined.

(** ** The sign of the summary *)

Lemma table_nonneg (fs : filesystem) (machine_mem : Z) (file_name : string)
    (type : role) (df : table metrics) :
  make_pidstat_tables fs machine_mem file_name type = Ok df ->
  Forall (fun r => 0 <= fst r
                   /\ nonneg (cpu (snd r)) /\ nonneg (mem (snd r))
                   /\ nonneg (kb_rd (snd r)) /\ nonneg (kb_wr (snd r))) df.
Proof.
  intros H. apply make_pidstat_tables_Ok in H.
  destruct H as (obs & Hobs & Hdf & Hsec).
  assert (Hnn : Forall (fun s => 0 <= s) (seconds df)).
  { rewrite Hsec. apply aggregate_seconds_nonneg.
    apply (parsed_df_seconds _ _ _ _ _ Hobs). }
  unfold seconds in Hnn. rewrite Forall_map in Hnn.
  rewrite Forall_forall in Hnn |- *. intros r Hr.
  split; [apply Hnn; exact Hr |].
  subst df. unfold clamp_df in Hr. apply in_map_iff in Hr.
  destruct Hr as (r0 & <- & _). cbn [snd clamp_metrics cpu mem kb_rd kb_wr].
  repeat split; apply clamp_nonneg.
Qed.

Lemma Qsum_nonneg (l : list Q) :
  Forall (fun q => (0 <= q)%Q) l -> (0 <= Qsum l)%Q.
Proof.
  induction 1 as [| q l Hq _ IH]; simpl; [apply Qle_refl |].
  replace 0%Q with (0 + 0)%Q by reflexivity.
  apply Qplus_le_compat; assumption.
Qed.

Lemma present_nonneg (l : list cell) :
  Forall nonneg l -> Forall (fun q => (0 <= q)%Q) (present l).
Proof.
  induction 1 as [| c l Hc _ IH]; simpl; [constructor |].
  destruct c as [q |]; [constructor; [apply Hc; reflexivity | exact IH] |].
  exact IH.
Qed.

Lemma mean_nonneg (l : list cell) : Forall nonneg l -> nonneg (mean l).
Proof.
  intros H q. unfold mean.
  pose proof (Qsum_nonneg _ (present_nonneg _ H)) as Hs.
  destruct (present l) as [| x xs]; [discriminate |].
  intros E. injection E as <-.
  apply Qle_shift_div_l; [| rewrite Qmult_0_l; exact Hs].
  unfold Qlt, inject_Z. simpl. lia.
Qed.

Lemma rint_nonneg (q : Q) : (0 <= q)%Q -> 0 <= rint q.
Proof.
  intros H. pose proof (Qfloor_resp_le _ _ H) as Hf.
  change (Qfloor 0) with 0 in Hf. unfold rint.
  destruct (Qcompare _ _); [destruct (Z.even _) | |]; lia.
Qed.

Lemma round1_nonneg (x : cell) : nonneg x -> nonneg (round1 x).
Proof.
  intros H q. destruct x as [v |]; simpl; [| discriminate].
  intros E. injection E as <-.
  assert (0 <= rint (v * 10)).
  { apply rint_nonneg. rewrite <- (Qmult_0_l 10).
    apply Qmult_le_compat_r; [apply H; reflexivity | discriminate]. }
  unfold Qle. simpl. lia.
Qed.

(** No number of the run summary is negative: negative samples were
    replaced by 0 in the tables, so the total time and the twelve
    averages of a run that returns are 0 or more (an average is missing
    only if its whole column is). *)
Theorem summary_is_nonnegative (fs : filesystem) (machine_mem : Z)
    (num_proc data_description output_results_path : string)
    (all_stats_df : table stats) (s : summary) :
  graph_pidstat fs machine_mem num_proc data_description
    output_results_path = Ok (all_stats_df, s) ->
  0 <= total_time s
  /\ List.length (averages s) = 12%nat
  /\ Forall nonneg (averages s).
Proof.
  intros H. unfold graph_pidstat in H.
  apply bind_Ok_inv in H. destruct H as (a & Hm & H).
  apply bind_Ok_inv in H. destruct H as (s' & Hrun & H).
  injection H as <- <-.
  unfold merged_stats in Hm.
  apply bind_Ok_inv in Hm. destruct Hm as (p & Hp & Hm).
  apply bind_Ok_inv in Hm. destruct Hm as (sv & Hs & Hm).
  apply bind_Ok_inv in Hm. destruct Hm as (d & Hd & Hm).
  injection Hm as <-.
  apply table_nonneg in Hp. apply table_nonneg in Hs.
  apply table_nonneg in Hd.
  rewrite Forall_forall in Hp, Hs, Hd.
  assert (Hrow : forall r,
             In r (merge_all p sv d) ->
             0 <= fst r
             /\ Forall (fun col => nonneg (col r)) summary_columns).
  { intros r Hr. apply merge_all_seconds_rows in Hr.
    destruct Hr as (Hrp & Hrs & Hrd).
    destruct (Hp _ Hrp) as (H0 & P1 & P2 & P3 & P4).
    destruct (Hs _ Hrs) as (_ & S1 & S2 & S3 & S4).
    destruct (Hd _ Hrd) as (_ & D1 & D2 & D3 & D4).
    cbn [snd] in *. split; [exact H0 |].
    unfold summary_columns. repeat constructor; assumption. }
  unfold run_summary in Hrun. apply bind_Ok_inv in Hrun.
  destruct Hrun as (total & Htot & Hrun). injection Hrun as <-.
  cbn [total_time averages].
  split; [| split; [reflexivity |]].
  - destruct (merge_all p sv d) as [| r l] eqn:E; [discriminate Htot |].
    destruct (series_max_spec (seconds (r :: l))) as (m & Hmx & Hin & _);
      [discriminate |].
    rewrite Hmx in Htot. injection Htot as <-.
    unfold seconds in Hin. apply in_map_iff in Hin.
    destruct Hin as (r' & <- & Hr'). apply (Hrow r' Hr').
  - change (Forall nonneg
              (map (average (merge_all p sv d)) summary_columns)).
    rewrite Forall_map. rewrite Forall_forall. intros col Hcol.
    unfold average. apply round1_nonneg, mean_nonneg.
    rewrite Forall_map. rewrite Forall_forall. intros r Hr.
    destruct (Hrow r Hr) as [_ Hcols].
    rewrite Forall_forall in Hcols. apply Hcols. exact Hcol.
Qed.

(** A run with negative samples. *)
Lemma summary_is_nonnegative_witness :
  exists all_stats_df s,
    graph_pidstat negative_run_files 16 "4" "small" "/tmp/hapi-performance/"
    = Ok (all_stats_df, s)
    /\ 0 <= total_time s
    /\ List.length (averages s) = 12%nat
    /\ Forall nonneg (averages s).
Proof.
  destruct (graph_pidstat negative_run_files 16 "4" "small"
              "/tmp/hapi-performance/") as [[a s] | e] eqn:H;
    [| vm_compute in H; discriminate H].
  exists a, s. split; [reflexivity |].
  exact (summary_is_nonnegative _ _ _ _ _ _ _ H).
Defined.

(** ** The number of cores *)













(** ** The length of the DB table *)

Lemma sorted_lt_length (l : list Z) :
  StronglySorted Z.lt l ->
  forall a b, Forall (fun x => a <= x <= b) l ->
    Z.of_nat (List.length l) <= Z.max 0 (b - a + 1).
Proof.
  induction 1 as [| x l Hl IH Hx]; intros a b Hb; [simpl; lia |].
  inversion Hb as [| y t Hy Ht]; subst.
  assert (Hb' : Forall (fun z => x + 1 <= z <= b) l).
  { rewrite Forall_forall in Hx, Ht |- *. intros z Hz.
    specialize (Hx z Hz). specialize (Ht z Hz). lia. }
  specialize (IH (x + 1) b Hb'). cbn [List.length]. lia.
Qed.

(** The DB table has at most one row for each second that its file can
    hold: a file with [n] marker lines gives at most [n + 1] rows, however
    many backends were sampled. *)
Theorem db_table_length_bounded (fs : filesystem) (machine_mem : Z)
    (file_name : string) (f : list string) (df : table metrics) :
  fs file_name = Some f ->
  make_pidstat_tables fs machine_mem file_name DB = Ok df ->
  Z.of_nat (List.length df) <= markers f + 1.
Proof.
  intros Hf H.
  assert (Hb : Forall (fun s => 0 <= s <= markers f) (seconds df)).
  { pose proof H as H'. apply make_pidstat_tables_Ok in H'.
    destruct H' as (obs & Hobs & _ & Hsec). rewrite Hsec.
    unfold parsed_df, open in Hobs. rewrite Hf in Hobs.
    cbn [bind] in Hobs. apply bind_Ok_inv in Hobs.
    destruct Hobs as (tu & Htu & Hobs).
    apply usage_df_seconds in Hobs. apply read_usage_bounds in Htu.
    rewrite Forall_forall in Htu |- *. intros s Hs.
    apply aggregate_seconds_In in Hs. rewrite Hobs in Hs.
    apply in_map_iff in Hs. destruct Hs as (u & <- & Hu).
    specialize (Htu u Hu). cbv beta in Htu. lia. }
  assert (Hs : StronglySorted Z.lt (seconds df)).
  { apply sorted_le_NoDup_lt; apply (table_sorted _ _ _ _ _ H).
    reflexivity. }
  pose proof (sorted_lt_length _ Hs 0 (markers f) Hb) as Hlen.
  pose proof (markers_nonneg f).
  unfold seconds in Hlen. rewrite length_map in Hlen. lia.
Qed.

(** The database file of the scenario: three samples, one marker, two
    rows. *)
Lemma db_table_length_bounded_witness :
  exists df,
    make_pidstat_tables scenario_files 16 database_path DB = Ok df
    /\ Z.of_nat (List.length df) <= 1 + 1.
Proof.
  destruct (make_pidstat_tables scenario_files 16 database_path DB)
    as [df | e] eqn:H; [| vm_compute in H; discriminate H].
  exists df. split; [reflexivity |].
  exact (db_table_length_bounded scenario_files 16 database_path _ df
           eq_refl H).
Defined.

(** One row per table at second 1: the merged row of second 1. *)
Lemma merged_rows_are_input_rows_witness :
  let m := Metrics (Some 1%Q) (Some 1%Q) (Some 0%Q) (Some 0%Q) in
  let m' := Metrics (Some 2%Q) (Some 1%Q) (Some 0%Q) (Some 0%Q) in
  In (1, ((m, m'), m)) (merge_all [(0, m); (1, m)] [(1, m')] [(1, m); (2, m)]).
Proof.
  intros m m'.
  refine (proj2 (merged_rows_are_input_rows [(0, m); (1, m)] [(1, m')]
                   [(1, m); (2, m)] (1, ((m, m'), m))) _).
  split; [right; left; reflexivity |].
  split; left; reflexivity.
Defined.

(** ** The three raw files *)

Lemma append_inv_head (a b c : string) :
  (a ++ b)%string = (a ++ c)%string -> b = c.
Proof.
  induction a as [| x a IH]; simpl; intros H; [exact H |].
  injection H as H. apply IH. exact H.
Qed.

(** Whatever the arguments of [graph_pidstat], the three tables are read
    from three different paths. *)
Theorem raw_paths_distinct
    (output_results_path data_description num_proc : string) :
  let path := raw_path output_results_path data_description in
  path "pipeline" num_proc <> path "server" num_proc
  /\ path "pipeline" num_proc <> path "database" num_proc
  /\ path "server" num_proc <> path "database" num_proc.
Proof.
  cbv zeta. unfold raw_path.
  repeat split; intros H;
    do 3 apply append_inv_head in H; discriminate H.
Qed.

Lemma make_pidstat_tables_missing (fs : filesystem) (machine_mem : Z)
    (file_name : string) (type : role) :
  fs file_name = None ->
  make_pidstat_tables fs machine_mem file_name type
  = Raise FileNotFoundError.
Proof.
  intros H. unfold make_pidstat_tables, parsed_df, open. rewrite H.
  reflexivity.
Qed.

(** [graph_pidstat] never returns when one of the three raw files is
    missing: it raises, a [FileNotFoundError] unless the table of a file
    read before the missing one has raised already (the files are read in
    the order pipeline, server, database). *)
Theorem missing_raw_file_is_fatal (fs : filesystem) (machine_mem : Z)
    (num_proc data_description output_results_path : string) :
  let path := raw_path output_results_path data_description in
  let run := graph_pidstat fs machine_mem num_proc data_description
               output_results_path in
  (fs (path "pipeline" num_proc) = None -> run = Raise FileNotFoundError)
  /\ (fs (path "server" num_proc) = None ->
      (exists e, run = Raise e)
      /\ ((exists p, make_pidstat_tables fs machine_mem
                       (path "pipeline" num_proc) Pipeline = Ok p) ->
          run = Raise FileNotFoundError))
  /\ (fs (path "database" num_proc) = None ->
      (exists e, run = Raise e)
      /\ ((exists p s,
              make_pidstat_tables fs machine_mem
                (path "pipeline" num_proc) Pipeline = Ok p
              /\ make_pidstat_tables fs machine_mem
                   (path "server" num_proc) Server = Ok s) ->
          run = Raise FileNotFoundError)).
Proof.
  cbv zeta. unfold graph_pidstat, merged_stats. split; [| split].
  - intros H. rewrite (make_pidstat_tables_missing _ _ _ _ H). reflexivity.
  - intros H. rewrite (make_pidstat_tables_missing _ _ _ Server H).
    destruct (make_pidstat_tables fs machine_mem
                (raw_path output_results_path data_description "pipeline"
                   num_proc) Pipeline) as [p | e]; cbn [bind].
    + split; [eexists |]; reflexivity.
    + split; [eexists; reflexivity |]. intros [p Hp]. discriminate Hp.
  - intros H. rewrite (make_pidstat_tables_missing _ _ _ DB H).
    destruct (make_pidstat_tables fs machine_mem
                (raw_path output_results_path data_description "pipeline"
                   num_proc) Pipeline) as [p | e]; cbn [bind].
    + destruct (make_pidstat_tables fs machine_mem
                  (raw_path output_results_path data_description "server"
                     num_proc) Server) as [s | e]; cbn [bind].
      * split; [eexists |]; reflexivity.
      * split; [eexists; reflexivity |].
        intros (p' & s & _ & Hs). discriminate Hs.
    + split; [eexists; reflexivity |].
      intros (p' & s & Hp & _). discriminate Hp.
Qed.

(** A run in which the database file is missing. *)
Lemma missing_raw_file_is_fatal_witness :
  exists e,
    graph_pidstat short_pipeline_files 16 "4" "small"
      "/tmp/hapi-performance/" = Raise e.
Proof.
  exact (proj1 (proj2 (proj2 (missing_raw_file_is_fatal short_pipeline_files
                                16 "4" "small" "/tmp/hapi-performance/"))
                  eq_refl)).
Defined.
